(** * Drought monitoring dashboard: state aggregation, index building, lookup

    A shallow embedding of the two scripts of the dashboard:
    - the map view (map.js): [severityToCategory], [loadMapPredictions]
      with the options it renders, [showStateMarker], [initMap],
      [updateMap] and the tables [STATE_COORDINATES], [DROUGHT_COLORS];
    - the prediction panel (prediction.js): [populateStateDistrictMap],
      [populateStates], [populateDistricts], [initializeYears],
      [getPrediction], [generateSamplePrediction], [displayPrediction].

    Conventions of the embedding.
    - A record of prediction_data.json is a [PredictionRecord]: one optional
      field per property name that the scripts read, typed as the data model
      types it (names are strings, year and month integers, measurements
      numbers).  [None] is an absent property, which JavaScript reads as
      [undefined].
    - Numbers are rationals ([Q]): a number stands for the value of the
      double that holds it, so comparisons and [toFixed], which work on that
      value, are exact.  The host rounds the results of [-], [+] and [/]:
      [median] takes this arithmetic as a parameter ([Arithmetic], with
      [doubles] for the host's and [exact] for the one without rounding),
      and [medianSeverity], [generateSamplePrediction] and
      [displayPrediction] are written with [exact].  What is proved of them
      does not depend on the rounding, or is evaluated on numbers whose
      sums and products are exact in doubles.  A computed value that may
      fail to be a number is a [value]: [undefined], [NaN] or [Num].
    - [Number] is defined on the strings the scripts build themselves, that
      is on decimal digits; what is proved through it is stated for such
      strings ([String_of_Z] of an integer that is not negative).
    - The object [stateDistrictMap] is a finite map over its own properties,
      read through [read], which falls back on the properties every object
      inherits from Object.prototype.  The constant tables of map.js are
      read with the plain lookup, that is for keys that are not such
      inherited names.
    - The DOM, the tile map and the console are not modelled: a function
      returns what it would hand to them. *)

From Stdlib Require Import QArith Qabs Qround Qpower Lqa ZArith String Ascii List.
From Stdlib Require Import Decimal DecimalString DecimalZ.
From Stdlib Require Import Sorting.Sorted Sorting.Permutation.
From Stdlib Require OrderedTypeEx.
From stdpp Require Import gmap strings list sorting.

Local Open Scope Z_scope.
Local Open Scope string_scope.

(** ** The fragment of JavaScript the scripts rely on *)

Module JS.

(** The result of an expression that is expected to be a number. *)
Inductive value (A : Type) : Type :=
| undefined
| NaN
| Num (a : A).
Arguments undefined {A}.
Arguments NaN {A}.
Arguments Num {A} a.

(** Reading a property: an absent one is [undefined]. *)
Definition prop {A} (field : option A) : value A :=
  match field with Some a => Num a | None => undefined end.

(** Arithmetic converts its operands to numbers; [undefined] becomes [NaN]
    and [NaN] is absorbing. *)
Definition arith {A} (op : A → A → A) (x y : value A) : value A :=
  match x, y with
  | Num a, Num b => Num (op a b)
  | _, _ => NaN
  end.

(** A relational operator is false as soon as one side is not a number. *)
Definition rel {A} (test : A → A → bool) (x y : value A) : bool :=
  match x, y with
  | Num a, Num b => test a b
  | _, _ => false
  end.

(** [x === y] on integers: [undefined] equals itself, [NaN] nothing. *)
Definition strict_eq (x y : value Z) : bool :=
  match x, y with
  | Num a, Num b => Z.eqb a b
  | undefined, undefined => true
  | _, _ => false
  end.

(** [p.name === s] where [s] is a string. *)
Definition strict_eq_string (field : option string) (s : string) : bool :=
  match field with Some a => String.eqb a s | None => false end.

(** ToBoolean on the types of the data model. *)
Class ToBoolean (A : Type) := truthy : A → bool.
#[global] Instance string_ToBoolean : ToBoolean string :=
  λ s, negb (String.eqb s "").
#[global] Instance Z_ToBoolean : ToBoolean Z := λ z, negb (Z.eqb z 0).
#[global] Instance Q_ToBoolean : ToBoolean Q := λ q, negb (Qeq_bool q 0).

(** [a || b] on two properties that may be absent. *)
Definition or_else {A} `{ToBoolean A} (a b : option A) : option A :=
  match a with
  | Some x => if truthy x then a else b
  | None => b
  end.

(** [!x] on a property. *)
Definition falsy {A} `{ToBoolean A} (a : option A) : bool :=
  match a with Some x => negb (truthy x) | None => true end.

(** [String(n)] for an integer. *)
Definition String_of_Z (n : Z) : string := NilZero.string_of_int (Z.to_int n).

(** A property inside a template literal. *)
Definition template (field : option Z) : string :=
  match field with Some n => String_of_Z n | None => "undefined" end.

(** [Number(s)] on the strings the scripts build and read back: the empty
    string is 0, a string of decimal digits (leading zeros allowed) is its
    value, and every other string is mapped to [NaN]. *)
Definition Number (s : string) : value Z :=
  match NilEmpty.uint_of_string s with
  | Some d => Num (Z.of_uint d)
  | None => NaN
  end.

(** [s.split(sep)] for a one-character separator. *)
Fixpoint split (sep : ascii) (s : string) : list string :=
  match s with
  | EmptyString => [EmptyString]
  | String c rest =>
      if Ascii.eqb c sep then EmptyString :: split sep rest
      else match split sep rest with
           | piece :: pieces => String c piece :: pieces
           | [] => [String c EmptyString]
           end
  end.

(** Array destructuring [const [a, b] = xs]: a missing position is
    [undefined]. *)
Definition at_index {A} (xs : list (value A)) (i : nat) : value A :=
  match xs !! i with Some v => v | None => undefined end.

(** [Array.prototype.sort].  The sort is stable; [before x y] says that the
    comparison does not put [x] after [y], that is [comparefn(x, y) > 0] is
    false (a [NaN] result counts as 0).  Every stable sort gives this result
    when the comparison is a consistent order; where it is not (a [NaN]
    result among numbers) the order is left to the engine, and the sorted
    arrays of which something is proved are compared consistently. *)
Section Sort.
Context {A : Type} (before : A → A → bool).

Fixpoint insert_sorted (x : A) (xs : list A) : list A :=
  match xs with
  | [] => [x]
  | y :: rest => if before x y then x :: xs else y :: insert_sorted x rest
  end.

Definition sort_defined (xs : list A) : list A := foldr insert_sorted [] xs.

(** [undefined] elements are moved to the end without being compared. *)
Definition Array_sort (xs : list (option A)) : list (option A) :=
  ((Some <$> sort_defined (omap id xs))
     ++ List.filter (λ x, negb (bool_decide (is_Some x))) xs)%list.
End Sort.

(** The order of [sort()] without a comparison function, on strings. *)
Definition default_before (x y : string) : bool := String.leb x y.

(** The order of [sort(comparefn)] from the number [comparefn] returns. *)
Definition comparefn_before {A R} (positive : R → bool)
    (comparefn : A → A → value R) (x y : A) : bool :=
  match comparefn x y with
  | Num r => negb (positive r)
  | _ => true
  end.

(** A [Set] keeps its elements in insertion order. *)
Definition Set_add {A} `{EqDecision A} (s : list A) (x : A) : list A :=
  if bool_decide (x ∈ s) then s else (s ++ [x])%list.

Definition new_Set {A} `{EqDecision A} (xs : list A) : list A :=
  foldl Set_add [] xs.

(** The names that every plain object inherits from Object.prototype. *)
Definition Object_prototype : list string :=
  ["constructor"; "hasOwnProperty"; "isPrototypeOf"; "propertyIsEnumerable";
   "toLocaleString"; "toString"; "valueOf"; "__proto__";
   "__defineGetter__"; "__defineSetter__"; "__lookupGetter__";
   "__lookupSetter__"].

Definition inherited (key : string) : bool :=
  bool_decide (key ∈ Object_prototype).

(** What [o[key]] finds on a plain object [o] used as a dictionary: an own
    property, else an inherited one (a function or the prototype itself,
    truthy and without array methods), else nothing. *)
Inductive property (A : Type) : Type :=
| Own (a : A)
| Inherited
| Missing.
Arguments Own {A} a.
Arguments Inherited {A}.
Arguments Missing {A}.

Definition read {A} (o : gmap string A) (key : string) : property A :=
  match o !! key with
  | Some a => Own a
  | None => if inherited key then Inherited else Missing
  end.

(** [s.includes(sub)] on strings. *)
Definition includes (s sub : string) : bool :=
  match String.index 0 sub s with Some _ => true | None => false end.

End JS.

Import JS.

(** ** Records of prediction_data.json *)

Module PredictionRecord.

Record t : Type := {
  state : option string;              State : option string;
  district : option string;           District : option string;
  month : option Z;                   Month : option Z;
  year : option Z;                    Year : option Z;
  drought_category : option string;   DroughtCategory : option string;
  drought_severity : option Q;        Severity : option Q;
  rainfall_prediction : option Q;     Rainfall : option Q;
  temperature_avg : option Q;         Temperature : option Q;
  confidence : option Q;              Confidence : option Q
}.

End PredictionRecord.

Export PredictionRecord.
Abbreviation PredictionRecord := PredictionRecord.t.

(** A record of the documented shape, in the lowercase spelling. *)
Definition observation (st : string) (di : option string) (y m : Z) (sev : Q)
    : PredictionRecord :=
  {| state := Some st; State := None; district := di; District := None;
     month := Some m; Month := None; year := Some y; Year := None;
     drought_category := None; DroughtCategory := None;
     drought_severity := Some sev; Severity := None;
     rainfall_prediction := None; Rainfall := None;
     temperature_avg := None; Temperature := None;
     confidence := None; Confidence := None |}.

(** ** The map view (map.js) *)

Module MapView.

Local Open Scope Q_scope.

(** State center coordinates. *)
Definition STATE_COORDINATES : gmap string (Q * Q) :=
  list_to_map [
    ("Andhra Pradesh", (15.9129, 79.7400));
    ("Arunachal Pradesh", (28.2180, 94.7278));
    ("Assam", (26.2006, 92.9376));
    ("Bihar", (25.0961, 85.3131));
    ("Chhattisgarh", (21.2787, 81.8661));
    ("Goa", (15.2993, 74.1240));
    ("Gujarat", (22.2587, 71.1924));
    ("Haryana", (29.0588, 76.0856));
    ("Himachal Pradesh", (31.1048, 77.1734));
    ("Jharkhand", (23.6102, 85.2799));
    ("Karnataka", (15.3173, 75.7139));
    ("Kerala", (10.8505, 76.2711));
    ("Madhya Pradesh", (22.9734, 78.6569));
    ("Maharashtra", (19.7515, 75.7139));
    ("Manipur", (24.6637, 93.9063));
    ("Meghalaya", (25.4670, 91.3662));
    ("Mizoram", (23.1645, 92.9376));
    ("Nagaland", (26.1584, 94.5624));
    ("Odisha", (20.9517, 85.0985));
    ("Punjab", (31.1471, 75.3412));
    ("Rajasthan", (27.0238, 74.2179));
    ("Sikkim", (27.5330, 88.5122));
    ("Tamil Nadu", (11.1271, 78.6569));
    ("Telangana", (18.1124, 79.0193));
    ("Tripura", (23.9408, 91.9882));
    ("Uttar Pradesh", (26.8467, 80.9462));
    ("Uttarakhand", (30.0668, 79.0193));
    ("West Bengal", (22.9868, 87.8550));
    ("Andaman and Nicobar Islands", (11.7401, 92.6586));
    ("Chandigarh", (30.7333, 76.7794));
    ("Dadra and Nagar Haveli and Daman and Diu", (20.4283, 72.8397));
    ("Delhi", (28.7041, 77.1025));
    ("Jammu and Kashmir", (33.7782, 76.5762));
    ("Ladakh", (34.1526, 77.5771));
    ("Lakshadweep", (10.5667, 72.6417));
    ("Puducherry", (11.9416, 79.8083))
  ].

(** Category -> color. *)
Definition DROUGHT_COLORS : gmap string string :=
  list_to_map [
    ("Exceptional Drought", "#730000");
    ("Extreme Drought", "#E60000");
    ("Severe Drought", "#FFAA00");
    ("Moderate Drought", "#FCD37F");
    ("Slightly Dry", "#FFFF00");
    ("Near Normal", "#FFFFFF");
    ("Slightly Wet", "#A6F28F");
    ("Moderate Wet", "#00AAFF");
    ("No Drought", "#4CAF50");
    ("Mild Drought", "#FFEB3B")
  ].

(** Relaxed thresholds so more states appear normal / mild. *)
Definition severityToCategory (severity : value Q) : string :=
  if rel Qle_bool severity (Num 0.8) then "No Drought"
  else if rel Qle_bool severity (Num 1.8) then "Slightly Dry"
  else if rel Qle_bool severity (Num 2.8) then "Moderate Drought"
  else if rel Qle_bool severity (Num 3.8) then "Severe Drought"
  else "Extreme Drought".

(** [ya*12+ma - (yb*12+mb)] on the two numbers read back from a period. *)
Definition period_key (s : string) : value Z :=
  let parts := Number <$> split "-" s in
  arith Z.add (arith Z.mul (at_index parts 0) (Num 12%Z)) (at_index parts 1).

Definition period_comparefn (a b : string) : value Z :=
  arith Z.sub (period_key a) (period_key b).

(** What [loadMapPredictions] computes from the fetched records before it
    renders them as options: the sorted [statesWithData] and the sorted
    periods ([sorted]). *)
Record MapControls : Type := {
  stateOptions : list (option string);
  sorted : list string
}.

Definition statesWithData (predictionData : list PredictionRecord)
    : list (option string) :=
  new_Set (state <$> predictionData).

(** Date dropdown 2024-2026 only. *)
Definition ymSet (predictionData : list PredictionRecord) : list string :=
  foldl (λ ym p,
           if rel Z.geb (prop (year p)) (Num 2024%Z)
              && rel Z.leb (prop (year p)) (Num 2026%Z)
           then Set_add ym (template (year p) ++ "-" ++ template (month p))
           else ym)
        [] predictionData.

Definition loadMapPredictions (predictionData : list PredictionRecord)
    : MapControls :=
  {| stateOptions := Array_sort default_before (statesWithData predictionData);
     sorted := sort_defined (comparefn_before (Z.ltb 0) period_comparefn)
                 (ymSet predictionData) |}.

(** The circle handed to the map, with the values interpolated in its popup. *)
Record circleMarker : Type := {
  center : Q * Q;
  radius : Z;
  fillColor : string;
  color : string;
  weight : Z;
  opacity : Q;
  fillOpacity : Q;
  popup_state : string;
  popup_median : value Q;      (* printed with toFixed(2) *)
  popup_category : string;
  popup_samples : nat
}.

(** The ways [showStateMarker] ends. *)
Inductive markerOutcome : Type :=
| NoRecords (setView : option ((Q * Q) * Z))
    (* no record: an empty layer, the view moved when the state is known *)
| NoCenter (category : string)
    (* records, but no coordinate: logged, nothing drawn *)
| ToFixedError
    (* the median is [undefined]: [avgSeverity.toFixed] throws *)
| Circle (circle : circleMarker) (setView : (Q * Q) * Z).

Record markerResult : Type := {
  found : nat;                 (* statePredictions.length, as logged *)
  outcome : markerOutcome
}.

(** [xs[i]] on an array whose elements may be [undefined]. *)
Definition element {A} (xs : list (option A)) (i : nat) : value A :=
  match xs !! i with Some (Some a) => Num a | _ => undefined end.

(** The arithmetic of the host on numbers: its [-], [+] and [/], which for
    doubles round their result. *)
Record Arithmetic : Type := {
  minus : Q → Q → Q;
  plus : Q → Q → Q;
  divide : Q → Q → Q
}.

(** The arithmetic without rounding. *)
Definition exact : Arithmetic :=
  {| minus := Qminus; plus := Qplus; divide := Qdiv |}.

(** The integer nearest to [x], the even one on a tie. *)
Definition round_half_even (x : Q) : Z :=
  let f := Qfloor x in
  match (x - inject_Z f ?= 1 # 2)%Q with
  | Lt => f
  | Gt => (f + 1)%Z
  | Eq => if Z.even f then f else (f + 1)%Z
  end.

(** The double nearest to [x], the one with an even significand on a tie:
    53 significant bits, and no bit below [2^-1074].  A result beyond the
    largest double, which the host turns into [Infinity], is outside the
    model. *)
Definition binary64 (x : Q) : Q :=
  if Qeq_bool x 0 then 0%Q
  else
    let a := Qabs x in
    let k := (Z.log2 (Qnum a) - Z.log2 (Zpos (Qden a)))%Z in
    let e :=
      Z.max (if Qle_bool (2 ^ k) a then k - 52 else k - 53)%Z (-1074)%Z in
    let n := round_half_even (a / 2 ^ e) in
    ((if Qle_bool 0 x then 1 else -1) * inject_Z n * 2 ^ e)%Q.

(** The arithmetic of the host on doubles: the exact result, rounded. *)
Definition doubles : Arithmetic :=
  {| minus := λ a b, binary64 (a - b);
     plus := λ a b, binary64 (a + b);
     divide := λ a b, binary64 (a / b) |}.

(** Use median severity to reduce effect of a few very dry districts: the
    median of the mapped severities. *)
Definition median (host : Arithmetic) (mapped : list (option Q)) : value Q :=
  let severities :=
    Array_sort (comparefn_before (λ d, negb (Qle_bool d 0))
                                 (λ a b, arith (minus host) (Num a) (Num b)))
               mapped in
  let mid := (length severities / 2)%nat in
  if Nat.eqb (length severities mod 2) 0
  then arith (divide host) (arith (plus host) (element severities (mid - 1))
                                              (element severities mid)) (Num 2)
  else element severities mid.

Definition medianSeverity (statePredictions : list PredictionRecord) : value Q :=
  median exact (drought_severity <$> statePredictions).

(** The records of the selected state and period. *)
Definition statePredictions (predictionData : list PredictionRecord)
    (state : string) (year month : value Z) : list PredictionRecord :=
  List.filter (λ p, strict_eq_string (PredictionRecord.state p) state
                    && strict_eq (prop (PredictionRecord.year p)) year
                    && strict_eq (prop (PredictionRecord.month p)) month)
              predictionData.

(** [const [year, month] = dateStr.split("-").map(Number)]. *)
Definition selectedPeriod (dateStr : string) : value Z * value Z :=
  let parts := Number <$> split "-" dateStr in
  (at_index parts 0, at_index parts 1).

(** One translucent, big circle per state. *)
Definition showStateMarker (predictionData : list PredictionRecord)
    (state dateStr : string) : markerResult :=
  let '(year, month) := selectedPeriod dateStr in
  let statePredictions := statePredictions predictionData state year month in
  {| found := length statePredictions;
     outcome :=
       if Nat.eqb (length statePredictions) 0
       then NoRecords ((λ c, (c, 6%Z)) <$> STATE_COORDINATES !! state)
       else
         let avgSeverity := medianSeverity statePredictions in
         let category := severityToCategory avgSeverity in
         let color :=
           match DROUGHT_COLORS !! category with
           | Some c => if truthy c then c else "#808080"
           | None => "#808080"
           end in
         match STATE_COORDINATES !! state with
         | None => NoCenter category
         | Some center =>
             match avgSeverity with
             | undefined => ToFixedError
             | _ =>
                 Circle {| center := center; radius := 40;
                           fillColor := color; color := color; weight := 2;
                           opacity := 0.4; fillOpacity := 0.6;
                           popup_state := state;
                           popup_median := avgSeverity;
                           popup_category := category;
                           popup_samples := length statePredictions |}
                        (center, 6%Z)
             end
         end |}.

(** The short month names of the date dropdown. *)
Definition monthNames : list string :=
  ["Jan"; "Feb"; "Mar"; "Apr"; "May"; "Jun"; "Jul"; "Aug"; "Sep"; "Oct";
   "Nov"; "Dec"].

(** A number inside a template literal or under [String(...)]. *)
Definition String_of_value (v : value Z) : string :=
  match v with
  | undefined => "undefined"
  | NaN => "NaN"
  | Num n => String_of_Z n
  end.

(** [s.padStart(targetLength, pad)] for a one-character pad. *)
Definition padStart (targetLength : nat) (pad : ascii) (s : string) : string :=
  string_of_list_ascii (repeat pad (targetLength - String.length s)%nat) ++ s.

(** [xs[i]] for a computed index. *)
Definition at_number {A} (xs : list A) (i : value Z) : option A :=
  match i with
  | Num n => if Z.ltb n 0 then None else xs !! Z.to_nat n
  | _ => None
  end.

(** An option of the date dropdown. *)
Record dateOption : Type := {
  option_value : string;
  option_textContent : string
}.

(** The option that [loadMapPredictions] appends for a period of [sorted]. *)
Definition renderDateOption (s : string) : dateOption :=
  let '(y, m) := selectedPeriod s in
  {| option_value :=
       String_of_value y ++ "-" ++ padStart 2 "0" (String_of_value m);
     option_textContent :=
       default "undefined" (at_number monthNames (arith Z.sub m (Num 1%Z)))
         ++ " " ++ String_of_value y |}.

(** The date dropdown after loading: its options and the value that the
    script assigns to it, if any. *)
Definition dateSelectOptions (predictionData : list PredictionRecord)
    : list dateOption :=
  renderDateOption <$> sorted (loadMapPredictions predictionData).

Definition dateSelectAssigned (predictionData : list PredictionRecord)
    : option string :=
  if existsb (λ d, String.eqb d "2026-1")
             (sorted (loadMapPredictions predictionData))
  then Some "2026-01" else None.

(** The drought layers of the Leaflet map: the layer groups that were added
    and not removed, each with an identity and its circles, the global
    [droughtLayer], and the view. *)
Record leaflet : Type := {
  view : (Q * Q) * Z;
  onMap : list (nat * list circleMarker);
  droughtLayer : option nat;
  created : nat                (* number of layer groups created so far *)
}.

(** Init map. *)
Definition initMap : leaflet :=
  {| view := ((20.5937, 78.9629), 5%Z); onMap := []; droughtLayer := None;
     created := 0 |}.

(** The effect of [showStateMarker] on the map: a new layer group becomes
    [droughtLayer]; it is added to the map unless the function returns early
    or throws. *)
Definition showStateMarker_on (predictionData : list PredictionRecord)
    (state dateStr : string) (m : leaflet) : leaflet :=
  let layer := created m in
  match outcome (showStateMarker predictionData state dateStr) with
  | NoRecords setView =>
      {| view := default (view m) setView;
         onMap := (onMap m ++ [(layer, [])])%list;
         droughtLayer := Some layer; created := S layer |}
  | NoCenter _ | ToFixedError =>
      {| view := view m; onMap := onMap m;
         droughtLayer := Some layer; created := S layer |}
  | Circle circle setView =>
      {| view := setView;
         onMap := (onMap m ++ [(layer, [circle])])%list;
         droughtLayer := Some layer; created := S layer |}
  end.

(** Update on controls.  [state] and [dateSelect] are the values of the two
    selects ([None] when the element is missing). *)
Definition updateMap (predictionData : list PredictionRecord)
    (state dateSelect : option string) (m : leaflet) : leaflet :=
  let dateSelect :=
    match dateSelect with
    | Some d => if truthy d then d else "2024-01"
    | None => "2024-01"
    end in
  let cleared :=
    match droughtLayer m with
    | Some layer =>
        {| view := view m;
           onMap := List.filter (λ l, negb (Nat.eqb (fst l) layer)) (onMap m);
           droughtLayer := None; created := created m |}
    | None => m
    end in
  match state with
  | Some state =>
      if truthy state
      then showStateMarker_on predictionData state dateSelect cleared
      else cleared
  | None => cleared
  end.

End MapView.

(** ** The prediction panel (prediction.js) *)

Module Prediction.

(** One step of the loop that extracts unique states and their districts.
    [None] is the TypeError thrown when [stateDistrictMap[state]] is an
    inherited property, which has no [includes]. *)
Definition addDistrict (stateDistrictMap : gmap string (list string))
    (record : PredictionRecord) : option (gmap string (list string)) :=
  let state := or_else (PredictionRecord.state record) (State record) in
  let district := or_else (PredictionRecord.district record) (District record) in
  match state, district with
  | Some state, Some district =>
      if truthy state && truthy district then
        let created :=
          match read stateDistrictMap state with
          | Missing => <[state := []]> stateDistrictMap
          | _ => stateDistrictMap
          end in
        match read created state with
        | Own districts =>
            if bool_decide (district ∈ districts) then Some created
            else Some (<[state := (districts ++ [district])%list]> created)
        | _ => None
        end
      else Some stateDistrictMap
  | _, _ => Some stateDistrictMap
  end.

(** Populate state-district mapping from prediction data.  [predictionData]
    is [None] when it is null or not an array; the second argument is the
    mapping before the call.  The result is [None] when the loop throws. *)
Definition populateStateDistrictMap
    (predictionData : option (list PredictionRecord))
    (stateDistrictMap : gmap string (list string))
    : option (gmap string (list string)) :=
  match predictionData with
  | None => Some stateDistrictMap
  | Some records =>
      (* Sort districts alphabetically *)
      fmap (sort_defined default_before)
        <$> foldl (λ m record, m ≫= λ m, addDistrict m record)
                  (Some stateDistrictMap) records
  end.

(** The options of the state dropdown: [Object.keys(stateDistrictMap).sort()]. *)
Definition populateStates (stateDistrictMap : gmap string (list string))
    : list string :=
  sort_defined default_before (fst <$> map_to_list stateDistrictMap).

(** [record.month == month] where [month] is the string of a select. *)
Definition loose_eq (field : option Z) (s : string) : bool :=
  match field with
  | Some n => rel Z.eqb (Num n) (Number s)
  | None => false
  end.

(** The test of the search for a prediction in the data. *)
Definition matches (state district month year : string)
    (record : PredictionRecord) : bool :=
  (strict_eq_string (PredictionRecord.state record) state
   || strict_eq_string (State record) state)
  && (strict_eq_string (PredictionRecord.district record) district
      || strict_eq_string (District record) district)
  && (loose_eq (PredictionRecord.month record) month
      || loose_eq (Month record) month)
  && (loose_eq (PredictionRecord.year record) year
      || loose_eq (Year record) year).

Definition droughtCategories : list string :=
  ["No Drought"; "Mild Drought"; "Moderate Drought"; "Severe Drought";
   "Extreme Drought"].

(** [xs[Math.floor(x)]]. *)
Definition at_floor {A} (xs : list A) (x : Q) : option A :=
  let i := Qfloor x in
  if Z.ltb i 0 then None else xs !! Z.to_nat i.

(** Generate sample prediction if no data available.  [random i] is the
    result of the i-th call of [Math.random()] made by this call. *)
Definition generateSamplePrediction (random : nat → Q)
    (state district month year : string) : PredictionRecord :=
  let randomCategory :=
    at_floor droughtCategories
      (random 0%nat * inject_Z (Z.of_nat (length droughtCategories)))%Q in
  {| PredictionRecord.state := None; State := None;
     PredictionRecord.district := None; District := None;
     PredictionRecord.month := None; Month := None;
     PredictionRecord.year := None; Year := None;
     drought_category := randomCategory; DroughtCategory := None;
     drought_severity := Some (random 1%nat * 5)%Q; Severity := None;
     rainfall_prediction := Some (random 2%nat * 200)%Q; Rainfall := None;
     temperature_avg := Some (20 + random 3%nat * 15)%Q; Temperature := None;
     confidence := Some (0.7 + random 4%nat * 0.25)%Q; Confidence := None |}.

(** [x.toFixed(digits)], which is defined on the value of the double [x]
    without rounding it first: the nearest multiple of [10^-digits], the
    larger one in magnitude on a tie, in decimal notation. *)
Definition toFixed (digits : nat) (x : Q) : string :=
  let n := Qfloor (Qabs x * inject_Z (10 ^ Z.of_nat digits)%Z + (1 # 2))%Q in
  let m := NilZero.string_of_uint (N.to_uint (Z.to_N n)) in
  let padded :=
    string_of_list_ascii (repeat "0"%char (S digits - String.length m)%nat) ++ m in
  let whole := (String.length padded - digits)%nat in
  (if Qle_bool 0 x then "" else "-")
    ++ substring 0 whole padded
    ++ (if Nat.eqb digits 0 then ""
        else "." ++ substring whole digits padded).

Definition monthNames : list string :=
  [""; "January"; "February"; "March"; "April"; "May"; "June";
   "July"; "August"; "September"; "October"; "November"; "December"].

(** [xs[key]] for a string key: an element is read when the key is the
    canonical decimal form of its index. *)
Definition at_key (xs : list string) (key : string) : option string :=
  match Number key with
  | Num i => if String.eqb (String_of_Z i) key then xs !! Z.to_nat i else None
  | _ => None
  end.

(** The cards written in the result panel. *)
Record resultPanel : Type := {
  Location : string;
  Period : string;
  Drought_Category : string;
  severityClass : string;
  Severity_Index : string;
  Predicted_Rainfall : string;
  Avg_Temperature : string;
  Confidence_percent : string
}.

(** [a || b || fallback]. *)
Definition or_default {A} `{ToBoolean A} (a b : option A) (fallback : A) : A :=
  match or_else a b with
  | Some x => if truthy x then x else fallback
  | None => fallback
  end.

(** Display prediction results. *)
Definition displayPrediction (prediction : PredictionRecord)
    (state district month year : string) : resultPanel :=
  let category :=
    or_default (drought_category prediction) (DroughtCategory prediction)
               "Unknown" in
  let severity :=
    or_default (drought_severity prediction) (Severity prediction) 0%Q in
  let rainfall :=
    or_default (rainfall_prediction prediction) (Rainfall prediction) 0%Q in
  let temperature :=
    or_default (temperature_avg prediction) (Temperature prediction) 0%Q in
  let confidence :=
    or_default (PredictionRecord.confidence prediction)
               (Confidence prediction) 0%Q in
  (* Determine severity class *)
  let severityClass :=
    if includes category "Severe" || includes category "Extreme"
    then "severity-severe"
    else if includes category "Moderate" || includes category "Mild"
    then "severity-moderate"
    else "severity-normal" in
  {| Location := district ++ ", " ++ state;
     Period := default "undefined" (at_key monthNames month) ++ " " ++ year;
     Drought_Category := category;
     severityClass := severityClass;
     Severity_Index := toFixed 2 severity;
     Predicted_Rainfall := toFixed 1 rainfall;
     Avg_Temperature := toFixed 1 temperature;
     Confidence_percent := toFixed 0 (confidence * 100)%Q ++ "%" |}.

(** The ways [getPrediction] ends. *)
Inductive predictionOutcome : Type :=
| Alert                                  (* 'Please select all parameters' *)
| Displayed (prediction : PredictionRecord) (panel : resultPanel).

(** Get prediction based on selected parameters. *)
Definition getPrediction (predictionData : option (list PredictionRecord))
    (random : nat → Q) (state district month year : string)
    : predictionOutcome :=
  (* Validate inputs *)
  if negb (truthy state) || negb (truthy district)
     || negb (truthy month) || negb (truthy year)
  then Alert
  else
    (* Search for prediction in data *)
    let prediction :=
      match predictionData with
      | Some records => List.find (matches state district month year) records
      | None => None
      end in
    (* If no data found, generate sample prediction *)
    let prediction :=
      match prediction with
      | Some found => found
      | None => generateSamplePrediction random state district month year
      end in
    Displayed prediction (displayPrediction prediction state district month year).

(** The district dropdown after [populateDistricts(state)]: the options that
    follow 'Select District', whether the select is disabled, and whether
    the function ended by throwing a TypeError. *)
Record districtSelect : Type := {
  districtOptions : list string;
  disabled : bool;
  TypeError : bool
}.

(** Populate district dropdown based on selected state. *)
Definition populateDistricts (stateDistrictMap : gmap string (list string))
    (state : string) : districtSelect :=
  if truthy state then
    match read stateDistrictMap state with
    | Own districts =>
        {| districtOptions := districts; disabled := false;
           TypeError := false |}
    | Inherited =>
        (* enabled, then [stateDistrictMap[state].forEach] is not a function *)
        {| districtOptions := []; disabled := false; TypeError := true |}
    | Missing =>
        {| districtOptions := []; disabled := true; TypeError := false |}
    end
  else {| districtOptions := []; disabled := true; TypeError := false |}.

(** Initialize year dropdown (2020-2030): the years appended, each with its
    [selected] flag. *)
Definition initializeYears (currentYear : Z) : list (Z * bool) :=
  (λ year, (year, Z.eqb year currentYear)) <$> seqZ 2020 11.

End Prediction.

(** ** Notions used to state the properties *)

Import MapView Prediction.

Definition bihar_2025_03 : list PredictionRecord :=
  [observation "Bihar" None 2025 3 2.0; observation "Bihar" None 2025 3 4.0].
Definition kerala_2024_05 : list PredictionRecord :=
  [observation "Kerala" None 2024 5 1.5].

Definition classifierCategories : list string :=
  ["No Drought"; "Slightly Dry"; "Moderate Drought"; "Severe Drought";
   "Extreme Drought"].

(** The median in the words of the specification: sort ascending; the middle
    element when the count is odd, the average of the two middle elements
    when it is even.  The average is taken in the arithmetic of the host. *)
Definition is_median (host : Arithmetic) (values : list Q) (m : Q) : Prop :=
  ∃ ascending : list Q,
    ascending ≡ₚ values ∧ StronglySorted Qle ascending ∧
    if Nat.odd (length ascending)
    then ∃ a, ascending !! (length ascending / 2)%nat = Some a ∧ (m == a)%Q
    else ∃ a b, ascending !! (length ascending / 2 - 1)%nat = Some a
                ∧ ascending !! (length ascending / 2)%nat = Some b
                ∧ (m == divide host (plus host a b) 2)%Q.

(** On the given numbers the host's subtraction has the sign of the exact
    difference, as the subtraction of doubles has. *)
Definition sign_faithful (host : Arithmetic) (values : list Q) : Prop :=
  ∀ a b, a ∈ values → b ∈ values →
         Qle_bool (minus host a b) 0 = Qle_bool (a - b) 0.

Definition severities_1_3_5 : list PredictionRecord :=
  [observation "Goa" None 2025 1 1.0; observation "Goa" None 2025 1 3.0;
   observation "Goa" None 2025 1 5.0].
Definition severities_1_2_3_4 : list PredictionRecord :=
  [observation "Goa" None 2025 1 1.0; observation "Goa" None 2025 1 2.0;
   observation "Goa" None 2025 1 3.0; observation "Goa" None 2025 1 4.0].

(** The doubles written 0.7 and 4.9. *)
Definition severities_07_49 : list PredictionRecord :=
  [observation "Goa" None 2025 1 (binary64 0.7);
   observation "Goa" None 2025 1 (binary64 4.9)].

(** The order that the comparison function [(a, b) => a - b] induces. *)
Definition severity_before (host : Arithmetic) : Q → Q → bool :=
  comparefn_before (λ d, negb (Qle_bool d 0))
                   (λ a b, arith (minus host) (Num a) (Num b)).

(** A number that a double holds. *)
Definition is_double (v : Q) : Prop := (binary64 v == v)%Q.

(** The same record under the capitalized keys [State], [District], [Month]
    and [Year]. *)
Definition capitalized (r : PredictionRecord) : PredictionRecord :=
  {| state := None; State := state r; district := None; District := district r;
     month := None; Month := month r; year := None; Year := year r;
     drought_category := drought_category r;
     DroughtCategory := DroughtCategory r;
     drought_severity := drought_severity r; Severity := Severity r;
     rainfall_prediction := rainfall_prediction r; Rainfall := Rainfall r;
     temperature_avg := temperature_avg r; Temperature := Temperature r;
     confidence := confidence r; Confidence := Confidence r |}.

Definition patna_2025_03 : PredictionRecord :=
  observation "Bihar" (Some "Patna") 2025 3 2.0.

Definition shownPanel (o : predictionOutcome) : option resultPanel :=
  match o with Alert => None | Displayed _ panel => Some panel end.

Definition lowercase_only (r : PredictionRecord) : Prop :=
  State r = None ∧ District r = None ∧ Month r = None ∧ Year r = None.

(** A usable name: present and not empty. *)
Definition nonempty (field : option string) : option string :=
  match field with
  | Some name => if String.eqb name "" then None else Some name
  | None => None
  end.

(** The lowercase field when it is present and not empty, otherwise the
    capitalized one. *)
Definition preferred (lower upper : option string) : option string :=
  match nonempty lower with
  | Some name => Some name
  | None => nonempty upper
  end.

(** The (state, district) pair that a record contributes to the index. *)
Definition observed (r : PredictionRecord) : option (string * string) :=
  match preferred (state r) (State r), preferred (district r) (District r) with
  | Some s, Some d => Some (s, d)
  | _, _ => None
  end.

(** An index to which the district [d] of the state [s] is added, at the
    end of the districts of [s] unless it is among them. *)
Definition with_district (index : gmap string (list string)) (s d : string)
    : gmap string (list string) :=
  let districts := default [] (index !! s) in
  if bool_decide (d ∈ districts) then index
  else <[s := (districts ++ [d])%list]> index.

(** A record whose spellings disagree: the lowercase state is "Bihar", the
    capitalized one "Kerala", and the district is only capitalized. *)
Definition bihar_or_kerala : PredictionRecord :=
  {| state := Some "Bihar"; State := Some "Kerala";
     district := None; District := Some "Patna";
     month := Some 3; Month := None; year := Some 2025; Year := None;
     drought_category := None; DroughtCategory := None;
     drought_severity := None; Severity := None;
     rainfall_prediction := None; Rainfall := None;
     temperature_avg := None; Temperature := None;
     confidence := None; Confidence := None |}.

(** A record whose two spellings of the state disagree. *)
Definition two_spellings : PredictionRecord :=
  {| state := Some "Bihar"; State := Some "Kerala";
     district := Some "Patna"; District := None;
     month := Some 3; Month := None; year := Some 2025; Year := None;
     drought_category := Some "Severe Drought"; DroughtCategory := None;
     drought_severity := Some 3.1%Q; Severity := None;
     rainfall_prediction := None; Rainfall := None;
     temperature_avg := None; Temperature := None;
     confidence := None; Confidence := None |}.

(** A record of the data set with measurements. *)
Definition gaya_2025_04 : PredictionRecord :=
  {| state := Some "Bihar"; State := None;
     district := Some "Gaya"; District := None;
     month := Some 4; Month := None; year := Some 2025; Year := None;
     drought_category := Some "Moderate Drought"; DroughtCategory := None;
     drought_severity := Some 2.5%Q; Severity := None;
     rainfall_prediction := Some 100%Q; Rainfall := None;
     temperature_avg := Some 27.5%Q; Temperature := None;
     confidence := Some 0.825%Q; Confidence := None |}.

(** The index after a record that does not make the loop throw. *)
Definition indexed (m : gmap string (list string)) (r : PredictionRecord)
    : gmap string (list string) :=
  match observed r with
  | Some (s, d) => with_district m s d
  | None => m
  end.

(** A record at which the loop throws when its state is not yet a key: its
    state is the name of an inherited property. *)
Definition throwing (r : PredictionRecord) : bool :=
  match observed r with
  | Some (s, _) => inherited s
  | None => false
  end.

(** An index none of whose keys is an inherited name, as every index built
    from the empty one is. *)
Definition clean (m : gmap string (list string)) : Prop :=
  ∀ s, inherited s = true → m !! s = None.

(** What a state is mapped to, the empty list when it is not a key. *)
Definition districts_of (m : gmap string (list string)) (s : string) : list string :=
  default [] (m !! s).

(** One record whose state is the name of an inherited property. *)
Definition constructor_record : PredictionRecord :=
  observation "constructor" (Some "X") 2025 3 1.0.

(** The string under which a period is kept in [ymSet]. *)
Definition period_string (y m : Z) : string :=
  String_of_Z y ++ "-" ++ String_of_Z m.

(** The test of the date dropdown: [p.year >= 2024 && p.year <= 2026]. *)
Definition in_dropdown_range (p : PredictionRecord) : bool :=
  rel Z.geb (prop (year p)) (Num 2024) && rel Z.leb (prop (year p)) (Num 2026).

(** The data model's typing of the month of a record. *)
Definition month_in_data_model (p : PredictionRecord) : Prop :=
  ∃ m, month p = Some m ∧ 1 <= m <= 12.

(** The period read back from a string of [ymSet]. *)
Definition period_of_string (s : string) : Z * Z :=
  match selectedPeriod s with
  | (Num y, Num m) => (y, m)
  | _ => (0, 0)
  end.

Definition months_chronological (a b : Z * Z) : Prop :=
  a.1 * 12 + a.2 <= b.1 * 12 + b.2.

(** A string of [ymSet] written from a record typed by the data model. *)
Definition well_formed_period (s : string) : Prop :=
  ∃ y m, s = period_string y m ∧ 2024 <= y <= 2026 ∧ 1 <= m <= 12.

Definition period_before : string → string → bool :=
  comparefn_before (Z.ltb 0) period_comparefn.

Definition three_periods : list PredictionRecord :=
  [observation "Goa" None 2024 9 1.0; observation "Goa" None 2024 10 1.0;
   observation "Goa" None 2024 1 1.0].

(** The position of a category on the classifier's scale. *)
Definition categoryRank (category : string) : nat :=
  if String.eqb category "No Drought" then 0
  else if String.eqb category "Slightly Dry" then 1
  else if String.eqb category "Moderate Drought" then 2
  else if String.eqb category "Severe Drought" then 3
  else 4.

Definition severe_pair : list PredictionRecord :=
  [observation "Goa" None 2025 1 3.0; observation "Goa" None 2025 1 3.5].

(** One record of Goa whose severity rounds to 2.80. *)
Definition goa_2_804 : list PredictionRecord :=
  [observation "Goa" None 2025 1 2.804].

(** Two records of Goa that carry no severity. *)
Definition goa_without_severity : list PredictionRecord :=
  [{| state := Some "Goa"; State := None; district := None; District := None;
      month := Some 1; Month := None; year := Some 2025; Year := None;
      drought_category := None; DroughtCategory := None;
      drought_severity := None; Severity := None;
      rainfall_prediction := None; Rainfall := None;
      temperature_avg := None; Temperature := None;
      confidence := None; Confidence := None |};
   {| state := Some "Goa"; State := None; district := None; District := None;
      month := Some 1; Month := None; year := Some 2025; Year := None;
      drought_category := None; DroughtCategory := None;
      drought_severity := None; Severity := None;
      rainfall_prediction := None; Rainfall := None;
      temperature_avg := None; Temperature := None;
      confidence := None; Confidence := None |}].

(** A control event: the records loaded so far and the values of the state
    and date selects when [updateMap] runs. *)
Definition controlEvent : Type :=
  list PredictionRecord * option string * option string.

Definition updateMaps (events : list controlEvent) : leaflet :=
  foldl (λ m e, updateMap e.1.1 e.1.2 e.2 m) initMap events.

(** The invariant of the layers: what is on the map is the current
    [droughtLayer], with at most one circle. *)
Definition one_layer (m : leaflet) : Prop :=
  (length (onMap m) <= 1)%nat
  ∧ ∀ layer circles, (layer, circles) ∈ onMap m →
      droughtLayer m = Some layer ∧ (length circles <= 1)%nat.

(** The same record with its measurements under the capitalized keys
    [DroughtCategory], [Severity], [Rainfall], [Temperature] and
    [Confidence]. *)
Definition capitalized_measurements (r : PredictionRecord) : PredictionRecord :=
  {| state := state r; State := State r;
     district := district r; District := District r;
     month := month r; Month := Month r; year := year r; Year := Year r;
     drought_category := None; DroughtCategory := drought_category r;
     drought_severity := None; Severity := drought_severity r;
     rainfall_prediction := None; Rainfall := rainfall_prediction r;
     temperature_avg := None; Temperature := temperature_avg r;
     confidence := None; Confidence := confidence r |}.

(** A measurement that a record carries under the lowercase key, or under
    the capitalized key when the lowercase one is absent. *)
Definition measured {A} (lower upper : option A) (v : A) : Prop :=
  lower = Some v ∨ (lower = None ∧ upper = Some v).

(** The index of the records of Patna and Gaya. *)
Definition bihar_index : gmap string (list string) :=
  {[ "Bihar" := ["Gaya"; "Patna"] ]}.

(** ** Facts about the map view *)

Lemma Qle_bool_false (x y : Q) : Qle_bool x y = false ↔ (y < x)%Q.
Proof.
  split.
  - intros E. apply Qnot_le_lt. rewrite <- Qle_bool_iff. congruence.
  - intros L. destruct (Qle_bool x y) eqn:E; [|done].
    apply Qle_bool_iff in E. by apply Qlt_not_le in L.
Qed.

Ltac by_thresholds :=
  unfold severityToCategory, rel;
  repeat match goal with
         | |- context [Qle_bool ?x ?y] =>
             let E := fresh "E" in
             destruct (Qle_bool x y) eqn:E;
             [apply Qle_bool_iff in E | apply Qle_bool_false in E]
         end.


Lemma severityToCategory_cases (severity : value Q) :
  severityToCategory severity ∈ classifierCategories.
Proof.
  unfold severityToCategory, classifierCategories.
  repeat match goal with |- context [rel ?f ?x ?y] => destruct (rel f x y) end;
    set_solver.
Qed.

Lemma classifierCategories_colored (category : string) :
  category ∈ classifierCategories →
  ∃ c, DROUGHT_COLORS !! category = Some c ∧ truthy c = true ∧ c ≠ "#808080".
Proof.
  unfold classifierCategories. rewrite !elem_of_cons, elem_of_nil.
  intros [->|[->|[->|[->|[->|[]]]]]]; eexists; (split; [reflexivity|done]).
Qed.

(** C10: whatever the severity (negative, huge, or not a number), the
    category is one of the five of the classifier, each a key of
    [DROUGHT_COLORS]; hence a drawn circle never has the default color
    "#808080", and every severity at most 0.8 is "No Drought". *)
Theorem severityToCategory_always_colored (severity : value Q) :
  severityToCategory severity ∈ classifierCategories
  ∧ (∃ c, DROUGHT_COLORS !! severityToCategory severity = Some c
          ∧ truthy c = true ∧ c ≠ "#808080")
  ∧ (∀ data state dateStr circle view,
       outcome (showStateMarker data state dateStr) = Circle circle view →
       popup_category circle ∈ classifierCategories
       ∧ DROUGHT_COLORS !! popup_category circle = Some (fillColor circle)
       ∧ color circle = fillColor circle
       ∧ fillColor circle ≠ "#808080")
  ∧ (∀ s : Q, (s <= 0.8)%Q → severityToCategory (Num s) = "No Drought").
Proof.
  split_and!.
  - apply severityToCategory_cases.
  - apply classifierCategories_colored, severityToCategory_cases.
  - intros data state dateStr circle view. unfold showStateMarker.
    destruct (selectedPeriod dateStr) as [y m]. cbn [outcome].
    set (sel := statePredictions data state y m).
    destruct (Nat.eqb (length sel) 0); [discriminate|].
    destruct (STATE_COORDINATES !! state) as [c|]; [|discriminate].
    pose proof (severityToCategory_cases (medianSeverity sel)) as Hin.
    destruct (classifierCategories_colored _ Hin) as (col & Hcol & Ht & Hne).
    rewrite Hcol, Ht.
    destruct (medianSeverity sel); [discriminate| |]; intros [= <- <-]; done.
  - intros s Hs. unfold severityToCategory. cbn [rel].
    apply Qle_bool_iff in Hs. by rewrite Hs.
Qed.

(** C1 as stated fails: the two Bihar records of March 2025 are not drawn
    as "Moderate Drought" in "#FCD37F". *)
Lemma bihar_scenario_not_moderate :
  ¬ (∃ circle view,
       outcome (showStateMarker bihar_2025_03 "Bihar" "2025-03")
         = Circle circle view
       ∧ popup_category circle = "Moderate Drought"
       ∧ fillColor circle = "#FCD37F").
Proof.
  intros (circle & view & H & Hcat & _). vm_compute in H.
  injection H as <- _. discriminate Hcat.
Qed.

(** C1, amended: the two Bihar records of March 2025 with severities 2.0
    and 4.0 give the median 3.0, which is above 2.8 and therefore
    "Severe Drought", drawn in "#FFAA00", with 2 samples. *)
Theorem bihar_scenario :
  ∃ circle view median,
    showStateMarker bihar_2025_03 "Bihar" "2025-03"
      = {| found := 2; outcome := Circle circle view |}
    ∧ popup_median circle = Num median ∧ (median == 3)%Q
    ∧ popup_category circle = "Severe Drought"
    ∧ severityToCategory (Num 3%Q) = "Severe Drought"
    ∧ fillColor circle = "#FFAA00"
    ∧ popup_samples circle = 2%nat.
Proof.
  eexists _, _, _. split; [vm_compute; reflexivity|]. cbn.
  split_and!; reflexivity.
Qed.

Lemma strict_eq_string_true (field : option string) (s : string) :
  strict_eq_string field s = true ↔ field = Some s.
Proof.
  destruct field as [a|]; simpl; [|done].
  rewrite String.eqb_eq. split; congruence.
Qed.

Lemma strict_eq_prop_Num (field : option Z) (n : Z) :
  strict_eq (prop field) (Num n) = true ↔ field = Some n.
Proof.
  destruct field as [a|]; simpl; [|done].
  rewrite Z.eqb_eq. split; congruence.
Qed.

Lemma statePredictions_spec data st (y m : Z) (p : PredictionRecord) :
  p ∈ statePredictions data st (Num y) (Num m)
  ↔ p ∈ data ∧ state p = Some st ∧ year p = Some y ∧ month p = Some m.
Proof.
  unfold statePredictions. rewrite !list_elem_of_In, filter_In, !andb_true_iff.
  rewrite strict_eq_string_true, !strict_eq_prop_Num. tauto.
Qed.

(** C4: when no record has exactly the selected state, year and month,
    [showStateMarker] finds 0 records and ends in [NoRecords], which carries
    no category and only moves the view to the state's coordinates (when the
    table has them); as soon as one record matches it does not end there. *)
Theorem showStateMarker_no_match data st dateStr (y m : Z) :
  selectedPeriod dateStr = (Num y, Num m) →
  ((∀ p, p ∈ data →
         ¬ (state p = Some st ∧ year p = Some y ∧ month p = Some m)) →
   showStateMarker data st dateStr
     = {| found := 0;
          outcome := NoRecords ((λ c, (c, 6)) <$> STATE_COORDINATES !! st) |})
  ∧ ((∃ p, p ∈ data
           ∧ state p = Some st ∧ year p = Some y ∧ month p = Some m) →
     (0 < found (showStateMarker data st dateStr))%nat
     ∧ ∀ view, outcome (showStateMarker data st dateStr) ≠ NoRecords view).
Proof.
  intros Hperiod. unfold showStateMarker. rewrite Hperiod.
  generalize (STATE_COORDINATES !! st). intros coords.
  set (sel := statePredictions data st (Num y) (Num m)). split.
  - intros Hnone. assert (sel = []) as ->; [|reflexivity].
    apply elem_of_nil_inv. intros p Hp.
    apply statePredictions_spec in Hp as [Hp ?]. by eapply Hnone.
  - intros (p & Hp & Hmatch). cbn [found outcome].
    assert (p ∈ sel) as Hsel by (apply statePredictions_spec; done).
    destruct sel as [|q sel']; [by apply elem_of_nil in Hsel|].
    cbn [length Nat.eqb]. split; [lia|]. intros view.
    destruct coords; [|discriminate].
    destruct (medianSeverity (q :: sel')); discriminate.
Qed.

(** A record for ("Kerala", 2024, 5) is not selected by ("Kerala", 2024, 6). *)
Lemma showStateMarker_no_match_kerala :
  showStateMarker kerala_2024_05 "Kerala" "2024-06"
  = {| found := 0;
       outcome := NoRecords (Some ((10.8505, 76.2711)%Q, 6)) |}.
Proof.
  apply (proj1 (showStateMarker_no_match
                  kerala_2024_05 "Kerala" "2024-06" 2024 6 eq_refl)).
  intros p Hp (_ & _ & Hm). apply list_elem_of_singleton in Hp as ->.
  discriminate Hm.
Defined.

(** ** Facts about [Array.prototype.sort] *)

Section SortFacts.
Context {A : Type} (before : A → A → bool).

Lemma insert_sorted_Permutation (x : A) (xs : list A) :
  insert_sorted before x xs ≡ₚ x :: xs.
Proof.
  induction xs as [|y rest IH]; simpl; [done|].
  destruct (before x y); [done|]. rewrite IH. apply perm_swap.
Qed.

Lemma sort_defined_Permutation (xs : list A) : sort_defined before xs ≡ₚ xs.
Proof.
  induction xs as [|x rest IH]; simpl; [done|].
  by rewrite insert_sorted_Permutation, IH.
Qed.

Lemma sort_defined_length (xs : list A) :
  length (sort_defined before xs) = length xs.
Proof. by rewrite sort_defined_Permutation. Qed.

Context (R : relation A) (P : A → Prop).
Hypothesis R_trans : ∀ x y z, R x y → R y z → R x z.
Hypothesis before_R : ∀ x y, P x → P y → before x y = true → R x y.
Hypothesis not_before_R : ∀ x y, P x → P y → before x y = false → R y x.

Lemma insert_sorted_StronglySorted (x : A) (xs : list A) :
  P x → Forall P xs → StronglySorted R xs →
  StronglySorted R (insert_sorted before x xs).
Proof.
  intros Px HP Hs. induction Hs as [|y rest Hs IH Hy]; simpl.
  { repeat constructor. }
  apply Forall_cons in HP as [Py HP].
  destruct (before x y) eqn:E.
  - constructor; [by constructor|]. constructor; [by apply before_R|].
    eapply Forall_impl; [exact Hy|]. intros z ?. eapply R_trans; [by apply before_R|done].
  - constructor; [by apply IH|].
    rewrite insert_sorted_Permutation. constructor; [by apply not_before_R|done].
Qed.

Lemma sort_defined_StronglySorted (xs : list A) :
  Forall P xs → StronglySorted R (sort_defined before xs).
Proof.
  induction 1 as [|x rest Px HP IH]; simpl; [constructor|].
  apply insert_sorted_StronglySorted; [done| |done].
  by rewrite sort_defined_Permutation.
Qed.

End SortFacts.

Lemma Array_sort_defined {A} (before : A → A → bool) (xs : list A) :
  Array_sort before (Some <$> xs) = Some <$> sort_defined before xs.
Proof.
  unfold Array_sort.
  assert (omap id (Some <$> xs) = xs) as ->.
  { induction xs; simpl; [done|]. by f_equal. }
  assert (List.filter (λ x : option A, negb (bool_decide (is_Some x)))
            (Some <$> xs) = []) as ->; [|by rewrite app_nil_r].
  induction xs as [|x rest IH]; simpl; [done|].
  exact IH.
Qed.

Lemma severity_before_le (host : Arithmetic) (values : list Q) (a b : Q) :
  sign_faithful host values → a ∈ values → b ∈ values →
  severity_before host a b = Qle_bool a b.
Proof.
  intros Hsign Ha Hb. unfold severity_before, comparefn_before, arith.
  rewrite negb_involutive, (Hsign a b Ha Hb).
  destruct (Qle_bool a b) eqn:E.
  - apply Qle_bool_iff. apply Qle_bool_iff in E. lra.
  - destruct (Qle_bool (a - b) 0) eqn:E'; [|done].
    apply Qle_bool_iff in E'. assert (a <= b)%Q as L by lra.
    apply Qle_bool_iff in L. congruence.
Qed.

Lemma severities_StronglySorted (host : Arithmetic) (values : list Q) :
  sign_faithful host values →
  StronglySorted Qle (sort_defined (severity_before host) values).
Proof.
  intros Hsign.
  apply (sort_defined_StronglySorted _ Qle (λ v, v ∈ values)).
  - apply Qle_trans.
  - intros x y Hx Hy. rewrite (severity_before_le host values) by done.
    apply Qle_bool_iff.
  - intros x y Hx Hy. rewrite (severity_before_le host values) by done.
    intros E. destruct (Qlt_le_dec x y) as [L|L]; [|done].
    apply Qlt_le_weak, Qle_bool_iff in L. congruence.
  - by apply Forall_forall.
Qed.

Lemma element_Some {A} (xs : list A) (i : nat) (a : A) :
  xs !! i = Some a → element (Some <$> xs) i = Num a.
Proof. intros H. unfold element. by rewrite list_lookup_fmap, H. Qed.

Lemma odd_mod2 (n : nat) : Nat.odd n = negb (Nat.eqb (n mod 2) 0).
Proof.
  pose proof (Nat.div_mod_eq n 2) as E.
  pose proof (Nat.mod_upper_bound n 2 ltac:(lia)) as B.
  rewrite E at 1. rewrite Nat.add_comm, Nat.odd_add_mul_2.
  destruct (n mod 2)%nat as [|[|?]]; [done|done|lia].
Qed.

Lemma median_ascending (host : Arithmetic) (values : list Q) :
  values ≠ [] →
  let ascending := sort_defined (severity_before host) values in
  let n := length ascending in
  ∃ a b, ascending !! (n / 2 - 1)%nat = Some a
         ∧ ascending !! (n / 2)%nat = Some b
         ∧ median host (Some <$> values)
           = Num (if Nat.odd n then b else divide host (plus host a b) 2).
Proof.
  intros Hne. cbn zeta. unfold median. fold (severity_before host).
  rewrite Array_sort_defined. rewrite length_fmap.
  set (ascending := sort_defined (severity_before host) values).
  assert (length ascending ≠ 0%nat) as Hlen.
  { unfold ascending. rewrite sort_defined_length. by destruct values. }
  set (n := length ascending) in *.
  assert (n / 2 < n)%nat as Hmid by (apply Nat.div_lt; lia).
  destruct (lookup_lt_is_Some_2 ascending (n / 2)%nat Hmid) as [b Hb].
  assert (n / 2 - 1 < n)%nat as Hlo by lia.
  destruct (lookup_lt_is_Some_2 ascending (n / 2 - 1)%nat Hlo) as [a Ha].
  exists a, b. split_and!; [done..|].
  rewrite (element_Some _ _ _ Ha), (element_Some _ _ _ Hb), odd_mod2.
  by destruct (Nat.eqb (n mod 2) 0).
Qed.

(** ** Facts about the rounding of the host *)

Lemma round_half_even_ge (x : Q) : (1 <= x)%Q → 1 <= round_half_even x.
Proof.
  intros Hx. unfold round_half_even.
  assert (1 <= Qfloor x) as Hf.
  { change 1 with (Qfloor 1). by apply Qfloor_resp_le. }
  destruct (x - inject_Z (Qfloor x) ?= 1 # 2)%Q; [|lia|lia].
  destruct (Z.even (Qfloor x)); lia.
Qed.

Lemma Qpower_2_pos (e : Z) : (0 < 2 ^ e)%Q.
Proof. by apply Qpower_0_lt. Qed.

Lemma Qpower_2_plus (n m : Z) : (2 ^ (n + m) == 2 ^ n * 2 ^ m)%Q.
Proof. by apply Qpower_plus. Qed.

Lemma Qpower_2_Z (n : Z) : 0 <= n → (inject_Z (2 ^ n) == 2 ^ n)%Q.
Proof. intros Hn. by rewrite Zpower_Qpower. Qed.

Lemma Qpower_2_le (n m : Z) : n <= m → (2 ^ n <= 2 ^ m)%Q.
Proof.
  intros Hnm. replace m with (n + (m - n)) by lia.
  rewrite Qpower_2_plus, <- (Qpower_2_Z (m - n)) by lia.
  pose proof (Qpower_2_pos n).
  assert (1 <= inject_Z (2 ^ (m - n)))%Q.
  { change 1%Q with (inject_Z 1). rewrite <- Zle_Qle.
    pose proof (Z.pow_pos_nonneg 2 (m - n)). lia. }
  nra.
Qed.

Lemma Qpower_2_le_1 (n : Z) : 0 <= n → (1 <= 2 ^ n)%Q.
Proof. intros Hn. by apply Qpower_1_le. Qed.

Lemma binary64_exponent (a : Q) :
  (0 < a)%Q →
  let k := Z.log2 (Qnum a) - Z.log2 (Zpos (Qden a)) in
  (2 ^ 52 <= a / 2 ^ (if Qle_bool (2 ^ k) a then k - 52 else k - 53))%Q.
Proof.
  intros Ha. cbn zeta.
  set (k := Z.log2 (Qnum a) - Z.log2 (Zpos (Qden a))).
  assert (2 ^ (k - 1) <= a)%Q as Hlow.
  { destruct a as [n d]. cbn [Qnum Qden] in k.
    assert (0 < n) as Hn.
    { unfold Qlt in Ha. cbn in Ha. lia. }
    destruct (Z.log2_spec n Hn) as [Hn1 _].
    destruct (Z.log2_spec (Zpos d) (Pos2Z.is_pos d)) as [_ Hd2].
    pose proof (Z.log2_nonneg n) as Hln.
    pose proof (Z.log2_nonneg (Zpos d)) as Hld.
    replace (k - 1) with (Z.log2 n - Z.succ (Z.log2 (Zpos d))) by (unfold k; lia).
    rewrite Qpower_minus by done.
    rewrite <- !Qpower_2_Z by lia.
    rewrite (Qmake_Qdiv n d).
    assert (0 < inject_Z (Zpos d))%Q as Hd0.
    { change 0%Q with (inject_Z 0). rewrite <- Zlt_Qlt. lia. }
    assert (0 < inject_Z (2 ^ Z.succ (Z.log2 (Z.pos d))))%Q as Hr0.
    { change 0%Q with (inject_Z 0). rewrite <- Zlt_Qlt. lia. }
    assert (0 < inject_Z (2 ^ Z.log2 n))%Q as Hp0.
    { change 0%Q with (inject_Z 0). rewrite <- Zlt_Qlt. lia. }
    rewrite Zle_Qle in Hn1. rewrite Zlt_Qlt in Hd2.
    apply Qle_shift_div_l; [done|].
    unfold Qdiv. rewrite <- Qmult_assoc, (Qmult_comm (/ _)), Qmult_assoc.
    apply Qle_shift_div_r; [done|]. nra. }
  destruct (Qle_bool (2 ^ k) a) eqn:E.
  - apply Qle_bool_iff in E.
    apply Qle_shift_div_l; [apply Qpower_2_pos|].
    rewrite <- Qpower_2_plus. by replace (52 + (k - 52)) with k by lia.
  - apply Qle_shift_div_l; [apply Qpower_2_pos|].
    rewrite <- Qpower_2_plus. by replace (52 + (k - 53)) with (k - 1) by lia.
Qed.

Lemma binary64_sign (x : Q) (z : Z) :
  (x == inject_Z z * 2 ^ (-1074))%Q →
  Qle_bool (binary64 x) 0 = Qle_bool x 0.
Proof.
  intros Hgrid. unfold binary64.
  destruct (Qeq_bool x 0) eqn:E0.
  { apply Qeq_bool_iff in E0. symmetry. apply Qle_bool_iff. rewrite E0.
    apply Qle_refl. }
  apply Qeq_bool_neq in E0.
  assert (0 < Qabs x)%Q as Ha.
  { destruct (Q_dec x 0) as [[Hneg|Hpos]|Hzero]; [| |done].
    - rewrite Qabs_neg by lra. lra.
    - rewrite Qabs_pos by lra. lra. }
  set (a := Qabs x) in *.
  set (k := Z.log2 (Qnum a) - Z.log2 (Zpos (Qden a))).
  pose proof (binary64_exponent a Ha) as Hexp. cbn zeta in Hexp. fold k in Hexp.
  set (e' := if Qle_bool (2 ^ k) a then k - 52 else k - 53) in *.
  assert (1 <= a / 2 ^ Z.max e' (-1074))%Q as Hscaled.
  { destruct (Z.max_spec e' (-1074)) as [[_ ->]|[_ ->]].
    - assert (z ≠ 0) as Hz.
      { intros ->. apply E0. rewrite Hgrid. ring. }
      assert (a == inject_Z (Z.abs z) * 2 ^ (-1074))%Q as ->.
      { unfold a. rewrite Hgrid, Qabs_Qmult.
        change (Qabs (inject_Z z)) with (inject_Z (Z.abs z)).
        rewrite (Qabs_pos (2 ^ (-1074))); [done|]. apply Qlt_le_weak, Qpower_2_pos. }
      pose proof (Qpower_2_pos (-1074)).
      apply Qle_shift_div_l; [done|].
      assert (1 <= inject_Z (Z.abs z))%Q.
      { change 1%Q with (inject_Z 1). rewrite <- Zle_Qle. lia. }
      nra.
    - pose proof (Qpower_2_le_1 52 ltac:(lia)). lra. }
  apply round_half_even_ge in Hscaled.
  set (n := round_half_even (a / 2 ^ Z.max e' (-1074))) in *.
  pose proof (Qpower_2_pos (Z.max e' (-1074))) as Hpow.
  assert (1 <= inject_Z n)%Q as Hn.
  { change 1%Q with (inject_Z 1). by rewrite <- Zle_Qle. }
  destruct (Qle_bool 0 x) eqn:Ex.
  - apply Qle_bool_iff in Ex.
    assert (0 < x)%Q as Hx.
    { destruct (Qlt_le_dec 0 x); [done|]. exfalso. apply E0. lra. }
    transitivity false.
    + destruct (Qle_bool _ 0) eqn:E; [|done]. apply Qle_bool_iff in E. nra.
    + symmetry. destruct (Qle_bool x 0) eqn:E; [|done].
      apply Qle_bool_iff in E. lra.
  - assert (x < 0)%Q as Hx.
    { destruct (Qlt_le_dec x 0); [done|]. apply Qle_bool_iff in q. congruence. }
    transitivity true.
    + apply Qle_bool_iff. nra.
    + symmetry. apply Qle_bool_iff. lra.
Qed.

Lemma binary64_grid (x : Q) :
  ∃ z : Z, (binary64 x == inject_Z z * 2 ^ (-1074))%Q.
Proof.
  unfold binary64. destruct (Qeq_bool x 0).
  { exists 0. ring. }
  set (e' := if Qle_bool _ _ then (_ - 52)%Z else _).
  set (e := Z.max e' (-1074)).
  set (n := round_half_even _).
  assert (-1074 <= e) as He by (unfold e; lia).
  exists ((if Qle_bool 0 x then 1 else -1) * n * 2 ^ (e + 1074)).
  rewrite !inject_Z_mult, Qpower_2_Z by lia.
  replace e with ((e + 1074) + (-1074)) at 1 by lia.
  rewrite Qpower_2_plus. destruct (Qle_bool 0 x); ring.
Qed.

Lemma doubles_sign_faithful (values : list Q) :
  (∀ v, v ∈ values → is_double v) → sign_faithful doubles values.
Proof.
  intros Hd a b Ha Hb. cbn [minus doubles].
  destruct (binary64_grid a) as [za Hza], (binary64_grid b) as [zb Hzb].
  apply (binary64_sign (a - b) (za - zb)).
  pose proof (Hd a Ha) as Ea. pose proof (Hd b Hb) as Eb.
  unfold is_double in Ea, Eb. rewrite Hza in Ea. rewrite Hzb in Eb.
  rewrite <- Ea, <- Eb. unfold Z.sub. rewrite inject_Z_plus, inject_Z_opp. ring.
Qed.



(** ** Facts about the prediction panel *)

(** C5 as stated fails for the lookup: a record whose [state] is "Bihar" and
    whose [State] is "Kerala" is found for "Kerala", although the lowercase
    spelling is present. *)
Lemma lookup_matches_either_spelling :
  ∃ panel,
    getPrediction (Some [two_spellings]) (λ _, 0%Q) "Kerala" "Patna" "3" "2025"
      = Displayed two_spellings panel
    ∧ preferred (state two_spellings) (State two_spellings) = Some "Bihar".
Proof. eexists. split; [vm_compute; reflexivity|reflexivity]. Qed.

Lemma loose_eq_spec (field : option Z) (s : string) :
  loose_eq field s = true ↔ ∃ n, field = Some n ∧ Number s = Num n.
Proof.
  unfold loose_eq. destruct field as [n|]; [|naive_solver].
  destruct (Number s) as [| |k]; cbn [rel]; [naive_solver..|].
  rewrite Z.eqb_eq. naive_solver.
Qed.

Lemma matches_spec (st di mo ye : string) (r : PredictionRecord) :
  matches st di mo ye r = true
  ↔ (state r = Some st ∨ State r = Some st)
    ∧ (district r = Some di ∨ District r = Some di)
    ∧ (∃ n, (month r = Some n ∨ Month r = Some n) ∧ Number mo = Num n)
    ∧ (∃ n, (year r = Some n ∨ Year r = Some n) ∧ Number ye = Num n).
Proof.
  unfold matches. rewrite !andb_true_iff, !orb_true_iff.
  rewrite !strict_eq_string_true, !loose_eq_spec. naive_solver.
Qed.

Lemma String_of_Z_truthy (n : Z) : truthy (String_of_Z n) = true.
Proof.
  unfold String_of_Z. destruct n as [|p|p]; [done| |done].
  cbn [Z.to_int NilZero.string_of_int]. unfold NilZero.string_of_uint.
  pose proof (DecimalPos.Unsigned.to_uint_nonnil p).
  by destruct (Pos.to_uint p).
Qed.

Lemma string_truthy (s : string) : s ≠ "" → truthy s = true.
Proof.
  intros H. unfold truthy, string_ToBoolean.
  by apply negb_true_iff, String.eqb_neq.
Qed.

Lemma String_of_Z_nonneg (n : Z) :
  0 <= n →
  ∃ d, String_of_Z n = NilEmpty.string_of_uint d ∧ Z.of_uint d = n.
Proof.
  intros Hn. unfold String_of_Z. destruct n as [|p|p]; [| |lia].
  - by exists (D0 Nil).
  - exists (Pos.to_uint p). cbn [Z.to_int NilZero.string_of_int].
    split.
    + unfold NilZero.string_of_uint.
      pose proof (DecimalPos.Unsigned.to_uint_nonnil p).
      by destruct (Pos.to_uint p).
    + unfold Z.of_uint. by rewrite DecimalPos.Unsigned.of_to.
Qed.

Lemma Number_digits (d : uint) :
  Number (NilEmpty.string_of_uint d) = Num (Z.of_uint d).
Proof. unfold Number. by rewrite NilEmpty.usu. Qed.

Lemma Number_String_of_Z (n : Z) : 0 <= n → Number (String_of_Z n) = Num n.
Proof.
  intros Hn. destruct (String_of_Z_nonneg n Hn) as (d & -> & <-).
  apply Number_digits.
Qed.

Lemma or_else_preferred (lower upper : option string) :
  match or_else lower upper with
  | Some name => if truthy name then Some name else None
  | None => None
  end = preferred lower upper.
Proof.
  unfold or_else, preferred, nonempty, truthy, string_ToBoolean.
  destruct lower as [l|]; [|destruct upper as [u|]; [|done]].
  - destruct (String.eqb l "") eqn:E; cbn [negb].
    + destruct upper as [u|]; [|done]. by destruct (String.eqb u "").
    + by rewrite E.
  - by destruct (String.eqb u "").
Qed.

Lemma read_with_district (m : gmap string (list string)) (s d : string) :
  match read m s with
  | Inherited => None
  | _ => Some (with_district m s d)
  end
  = match read match read m s with
               | Missing => <[s := []]> m
               | _ => m
               end s with
    | Own districts =>
        if bool_decide (d ∈ districts)
        then Some match read m s with
                  | Missing => <[s := []]> m
                  | _ => m
                  end
        else Some (<[s := (districts ++ [d])%list]>
                     match read m s with
                     | Missing => <[s := []]> m
                     | _ => m
                     end)
    | _ => None
    end.
Proof.
  unfold read, with_district. destruct (m !! s) as [l|] eqn:E.
  - rewrite E. change (default [] (Some l)) with l. by case_bool_decide.
  - destruct (inherited s); [by rewrite E|].
    rewrite lookup_insert_eq. change (default [] None) with (@nil string).
    rewrite !bool_decide_false by apply not_elem_of_nil.
    cbn [app]. by rewrite insert_insert_eq.
Qed.

Lemma addDistrict_spec (m : gmap string (list string)) (r : PredictionRecord) :
  addDistrict m r
  = match observed r with
    | Some (s, d) =>
        match read m s with
        | Inherited => None
        | _ => Some (with_district m s d)
        end
    | None => Some m
    end.
Proof.
  unfold addDistrict, observed.
  rewrite <- !or_else_preferred.
  destruct (or_else (state r) (State r)) as [s|]; [|done].
  destruct (or_else (district r) (District r)) as [d|];
    [|by destruct (truthy s)].
  destruct (truthy s), (truthy d); cbn [andb]; try done.
  symmetry. apply read_with_district.
Qed.

Lemma preferred_None_l (upper : option string) :
  preferred None upper = nonempty upper.
Proof. done. Qed.

Lemma preferred_None_r (lower : option string) :
  preferred lower None = nonempty lower.
Proof. unfold preferred. by destruct (nonempty lower). Qed.

Lemma observed_capitalized (r : PredictionRecord) :
  lowercase_only r → observed (capitalized r) = observed r.
Proof.
  intros (HS & HD & _). unfold observed.
  cbn [capitalized state State district District].
  by rewrite HS, HD, !preferred_None_l, !preferred_None_r.
Qed.

Lemma addDistrict_capitalized m (r : PredictionRecord) :
  lowercase_only r → addDistrict m (capitalized r) = addDistrict m r.
Proof. intros H. by rewrite !addDistrict_spec, observed_capitalized. Qed.

Lemma matches_capitalized (st di mo ye : string) (r : PredictionRecord) :
  lowercase_only r →
  matches st di mo ye (capitalized r) = matches st di mo ye r.
Proof.
  intros (HS & HD & HM & HY). unfold matches.
  cbn [capitalized state State district District month Month year Year].
  rewrite HS, HD, HM, HY. cbn [strict_eq_string loose_eq].
  by rewrite !orb_false_r.
Qed.

Lemma find_capitalized (st di mo ye : string) (rs : list PredictionRecord) :
  Forall lowercase_only rs →
  List.find (matches st di mo ye) (capitalized <$> rs)
  = capitalized <$> List.find (matches st di mo ye) rs.
Proof.
  induction 1 as [|r rs Hr _ IH]; [done|]. cbn [fmap list_fmap List.find].
  rewrite (matches_capitalized _ _ _ _ _ Hr).
  by destruct (matches st di mo ye r).
Qed.

Lemma foldl_addDistrict_capitalized (rs : list PredictionRecord)
    (m : option (gmap string (list string))) :
  Forall lowercase_only rs →
  foldl (λ m record, m ≫= λ m, addDistrict m record) m (capitalized <$> rs)
  = foldl (λ m record, m ≫= λ m, addDistrict m record) m rs.
Proof.
  intros H. revert m. induction H as [|r rs Hr _ IH]; intros m; [done|].
  cbn [fmap list_fmap foldl]. rewrite IH. f_equal.
  destruct m as [m|]; [|done]. cbn. by apply addDistrict_capitalized.
Qed.

(** C5, amended: a record that uses only the capitalized spellings is
    matched, displayed and indexed like the same record in lowercase; the
    index builder reads the state and the district each from the lowercase
    field when it is present and not empty and otherwise from the
    capitalized one; the lookup accepts a record exactly when, for each
    field, either spelling equals the selection. *)
Theorem spelling_fallback (r : PredictionRecord) (rs : list PredictionRecord)
    (m : gmap string (list string)) (random : nat → Q) (st di mo ye : string) :
  lowercase_only r → Forall lowercase_only rs →
  matches st di mo ye (capitalized r) = matches st di mo ye r
  ∧ shownPanel (getPrediction (Some (capitalized <$> rs)) random st di mo ye)
    = shownPanel (getPrediction (Some rs) random st di mo ye)
  ∧ populateStateDistrictMap (Some (capitalized <$> rs)) m
    = populateStateDistrictMap (Some rs) m
  ∧ (∀ both : PredictionRecord,
       addDistrict m both
       = match preferred (state both) (State both),
               preferred (district both) (District both) with
         | Some s, Some d =>
             match read m s with
             | Inherited => None
             | _ => Some (with_district m s d)
             end
         | _, _ => Some m
         end)
  ∧ (∀ (both : PredictionRecord) (mon yr : Z),
       0 <= mon → 0 <= yr →
       matches st di (String_of_Z mon) (String_of_Z yr) both = true
       ↔ (state both = Some st ∨ State both = Some st)
         ∧ (district both = Some di ∨ District both = Some di)
         ∧ (month both = Some mon ∨ Month both = Some mon)
         ∧ (year both = Some yr ∨ Year both = Some yr)).
Proof.
  intros Hr Hrs. split_and!.
  - by apply matches_capitalized.
  - unfold getPrediction.
    destruct (negb (truthy st) || negb (truthy di) || negb (truthy mo)
              || negb (truthy ye)); [done|].
    rewrite find_capitalized by done.
    destruct (List.find (matches st di mo ye) rs); reflexivity.
  - unfold populateStateDistrictMap. by rewrite foldl_addDistrict_capitalized.
  - intros both. rewrite addDistrict_spec. unfold observed.
    destruct (preferred (state both) (State both)) as [s|]; [|done].
    by destruct (preferred (district both) (District both)).
  - intros both mon yr Hmon Hyr.
    rewrite matches_spec, !Number_String_of_Z by done. naive_solver.
Qed.

(** A record under the capitalized keys is found and indexed; a record with
    both spellings of the state is indexed under the lowercase one. *)
Lemma spelling_fallback_patna :
  matches "Bihar" "Patna" "3" "2025" (capitalized patna_2025_03) = true
  ∧ populateStateDistrictMap (Some [capitalized patna_2025_03]) ∅
    = Some {[ "Bihar" := ["Patna"] ]}
  ∧ addDistrict ∅ bihar_or_kerala = Some {[ "Bihar" := ["Patna"] ]}.
Proof.
  assert (lowercase_only patna_2025_03) as H by (repeat split).
  destruct (spelling_fallback patna_2025_03 [patna_2025_03] ∅ (λ _, 0%Q)
              "Bihar" "Patna" "3" "2025" H (Forall_cons_2 _ _ _ H (Forall_nil_2 _)))
    as (Hm & _ & Hp & Hboth & _).
  split_and!.
  - rewrite Hm. reflexivity.
  - transitivity (populateStateDistrictMap (Some [patna_2025_03]) ∅);
      [exact Hp|vm_compute; reflexivity].
  - rewrite (Hboth bihar_or_kerala). vm_compute. reflexivity.
Defined.

(** C6 as stated fails: the panel shown for a placeholder is the panel shown
    for a record of the data with the same measurements. *)
Lemma placeholder_shown_like_a_record :
  ∃ placeholder panel,
    getPrediction (Some []) (λ _, 0.5%Q) "Bihar" "Gaya" "4" "2025"
      = Displayed placeholder panel
    ∧ placeholder = generateSamplePrediction (λ _, 0.5%Q) "Bihar" "Gaya" "4" "2025"
    ∧ getPrediction (Some [gaya_2025_04]) (λ _, 0.5%Q) "Bihar" "Gaya" "4" "2025"
      = Displayed gaya_2025_04 panel.
Proof.
  eexists _, _. split; [vm_compute; reflexivity|].
  split; vm_compute; reflexivity.
Qed.

Lemma displayPrediction_measurements (p q : PredictionRecord)
    (st di mo ye : string) :
  drought_category q = drought_category p →
  DroughtCategory q = DroughtCategory p →
  drought_severity q = drought_severity p → Severity q = Severity p →
  rainfall_prediction q = rainfall_prediction p → Rainfall q = Rainfall p →
  temperature_avg q = temperature_avg p → Temperature q = Temperature p →
  confidence q = confidence p → Confidence q = Confidence p →
  displayPrediction q st di mo ye = displayPrediction p st di mo ye.
Proof.
  intros H1 H2 H3 H4 H5 H6 H7 H8 H9 H10. unfold displayPrediction.
  by rewrite H1, H2, H3, H4, H5, H6, H7, H8, H9, H10.
Qed.

(** C6, amended: when no record has the selected state, district, month and
    year (under either spelling), the panel shows the result of
    [generateSamplePrediction]: an object that has no property besides its
    five measurements, hence no marker, and that is displayed exactly like
    a record of the data with the same measurements. *)
Theorem getPrediction_placeholder
    (predictionData : option (list PredictionRecord)) (random : nat → Q)
    (st di : string) (m y : Z) :
  st ≠ "" → di ≠ "" → 0 <= m → 0 <= y →
  (∀ records r, predictionData = Some records → r ∈ records →
     ¬ ((state r = Some st ∨ State r = Some st)
        ∧ (district r = Some di ∨ District r = Some di)
        ∧ (month r = Some m ∨ Month r = Some m)
        ∧ (year r = Some y ∨ Year r = Some y))) →
  let mo := String_of_Z m in
  let ye := String_of_Z y in
  let placeholder := generateSamplePrediction random st di mo ye in
  getPrediction predictionData random st di mo ye
    = Displayed placeholder (displayPrediction placeholder st di mo ye)
  ∧ (state placeholder = None ∧ State placeholder = None
     ∧ district placeholder = None ∧ District placeholder = None
     ∧ month placeholder = None ∧ Month placeholder = None
     ∧ year placeholder = None ∧ Year placeholder = None
     ∧ DroughtCategory placeholder = None ∧ Severity placeholder = None
     ∧ Rainfall placeholder = None ∧ Temperature placeholder = None
     ∧ Confidence placeholder = None)
  ∧ (is_Some (drought_severity placeholder)
     ∧ is_Some (rainfall_prediction placeholder)
     ∧ is_Some (temperature_avg placeholder)
     ∧ is_Some (confidence placeholder))
  ∧ (∀ genuine : PredictionRecord,
       drought_category genuine = drought_category placeholder →
       DroughtCategory genuine = None →
       drought_severity genuine = drought_severity placeholder →
       Severity genuine = None →
       rainfall_prediction genuine = rainfall_prediction placeholder →
       Rainfall genuine = None →
       temperature_avg genuine = temperature_avg placeholder →
       Temperature genuine = None →
       confidence genuine = confidence placeholder →
       Confidence genuine = None →
       displayPrediction genuine st di mo ye
       = displayPrediction placeholder st di mo ye).
Proof.
  intros Nst Ndi Hm Hy Hnone. cbn zeta. split_and!; try done; try by eexists.
  - unfold getPrediction.
    rewrite !String_of_Z_truthy, (string_truthy st), (string_truthy di) by done.
    cbn [negb orb].
    destruct predictionData as [records|]; [|done].
    destruct (List.find _ records) as [r|] eqn:E; [|done].
    exfalso. apply find_some in E as [Hin Hr].
    apply matches_spec in Hr as (Hs & Hd & (n & Hmo & En) & (k & Hye & Ek)).
    rewrite Number_String_of_Z in En, Ek by done.
    injection En as <-. injection Ek as <-.
    apply (Hnone records r eq_refl); [by apply list_elem_of_In|done].
  - intros genuine H1 H2 H3 H4 H5 H6 H7 H8 H9 H10.
    by apply displayPrediction_measurements.
Qed.

(** For April 2025 in Gaya, of which the data has no record, the panel shows
    the placeholder drawn from the random numbers. *)
Lemma getPrediction_placeholder_gaya :
  getPrediction (Some [patna_2025_03]) (λ _, 0.5%Q) "Bihar" "Gaya" "4" "2025"
  = Displayed (generateSamplePrediction (λ _, 0.5%Q) "Bihar" "Gaya" "4" "2025")
      {| Location := "Gaya, Bihar"; Period := "April 2025";
         Drought_Category := "Moderate Drought";
         severityClass := "severity-moderate";
         Severity_Index := "2.50"; Predicted_Rainfall := "100.0";
         Avg_Temperature := "27.5"; Confidence_percent := "83%" |}.
Proof.
  destruct (getPrediction_placeholder (Some [patna_2025_03]) (λ _, 0.5%Q)
              "Bihar" "Gaya" 4 2025) as (H & _); [done|done|lia|lia| |].
  - intros records r [= <-] ->%list_elem_of_singleton (_ & [[=]|[=]] & _).
  - cbn zeta in H. exact H.
Defined.

(** ** Facts about sets and string order *)

Lemma Set_add_elem {A} `{EqDecision A} (s : list A) (x y : A) :
  y ∈ Set_add s x ↔ y ∈ s ∨ y = x.
Proof.
  unfold Set_add. case_bool_decide.
  - naive_solver.
  - rewrite elem_of_app, list_elem_of_singleton. done.
Qed.

Lemma Set_add_NoDup {A} `{EqDecision A} (s : list A) (x : A) :
  NoDup s → NoDup (Set_add s x).
Proof.
  intros Hs. unfold Set_add. case_bool_decide; [done|].
  apply NoDup_app. split_and!; [done| |apply NoDup_singleton].
  intros y Hy ->%list_elem_of_singleton. done.
Qed.

Lemma default_before_le (a b : string) :
  default_before a b = true ↔ a = b ∨ OrderedTypeEx.String_as_OT.lt a b.
Proof.
  unfold default_before, String.leb.
  rewrite <- OrderedTypeEx.String_as_OT.cmp_lt, <- OrderedTypeEx.String_as_OT.cmp_eq.
  unfold OrderedTypeEx.String_as_OT.cmp.
  destruct (String.compare a b); naive_solver.
Qed.

Lemma default_before_trans (a b c : string) :
  default_before a b = true → default_before b c = true →
  default_before a c = true.
Proof.
  rewrite !default_before_le.
  intros [->|L1] [->|L2]; auto. right.
  by eapply OrderedTypeEx.String_as_OT.lt_trans.
Qed.

Lemma default_before_total (a b : string) :
  default_before a b = false → default_before b a = true.
Proof.
  intros E. destruct (String.leb_total a b) as [L|L]; [|done].
  unfold default_before in E. congruence.
Qed.

Lemma default_sort_StronglySorted (xs : list string) :
  StronglySorted (λ a b, default_before a b = true)
                 (sort_defined default_before xs).
Proof.
  apply (sort_defined_StronglySorted _ _ (λ _, True)).
  - apply default_before_trans.
  - done.
  - intros x y _ _. apply default_before_total.
  - by apply Forall_forall.
Qed.

Lemma default_sort_unique (xs ys : list string) :
  NoDup xs → NoDup ys → (∀ x, x ∈ xs ↔ x ∈ ys) →
  sort_defined default_before xs = sort_defined default_before ys.
Proof.
  intros Hx Hy Hxy.
  apply (StronglySorted_unique_strong (λ a b, default_before a b = true)).
  - intros a b _ _. apply String.leb_antisym.
  - apply default_sort_StronglySorted.
  - apply default_sort_StronglySorted.
  - rewrite !sort_defined_Permutation. by apply NoDup_Permutation.
Qed.

(** ** Facts about the state-district index *)

Lemma with_district_districts m (s d s' d' : string) :
  d' ∈ districts_of (with_district m s d) s'
  ↔ d' ∈ districts_of m s' ∨ (s' = s ∧ d' = d).
Proof.
  unfold districts_of, with_district. case_bool_decide as Hin.
  - naive_solver.
  - destruct (decide (s' = s)) as [->|Hne].
    + rewrite lookup_insert_eq. change (default [] (Some ?x)) with x.
      rewrite elem_of_app, list_elem_of_singleton. naive_solver.
    + rewrite lookup_insert_ne by done. naive_solver.
Qed.

Lemma with_district_NoDup m (s d : string) :
  (∀ s', NoDup (districts_of m s')) →
  ∀ s', NoDup (districts_of (with_district m s d) s').
Proof.
  intros Hm s'. unfold districts_of, with_district in *.
  case_bool_decide as Hin; [apply Hm|].
  destruct (decide (s' = s)) as [->|Hne].
  - rewrite lookup_insert_eq. change (default [] (Some ?x)) with x.
    apply NoDup_app. split_and!; [apply Hm| |apply NoDup_singleton].
    intros y Hy ->%list_elem_of_singleton. done.
  - rewrite lookup_insert_ne by done. apply Hm.
Qed.

Lemma with_district_dom m (s d s' : string) :
  is_Some (with_district m s d !! s') ↔ is_Some (m !! s') ∨ s' = s.
Proof.
  unfold with_district. case_bool_decide as Hin.
  - split; [by left|]. intros [?| ->]; [done|].
    destruct (m !! s) eqn:E; [done|]. by apply elem_of_nil in Hin.
  - destruct (decide (s' = s)) as [->|Hne].
    + rewrite lookup_insert_eq. naive_solver.
    + rewrite lookup_insert_ne by done. naive_solver.
Qed.

Lemma foldl_indexed_districts (rs : list PredictionRecord) m (s d : string) :
  d ∈ districts_of (foldl indexed m rs) s
  ↔ d ∈ districts_of m s ∨ ∃ r, r ∈ rs ∧ observed r = Some (s, d).
Proof.
  revert m. induction rs as [|r rs IH]; intros m; cbn [foldl].
  - setoid_rewrite elem_of_nil. naive_solver.
  - rewrite IH. setoid_rewrite elem_of_cons. unfold indexed.
    destruct (observed r) as [[s' d']|] eqn:E.
    + rewrite with_district_districts. naive_solver.
    + naive_solver.
Qed.

Lemma foldl_indexed_NoDup (rs : list PredictionRecord) m :
  (∀ s, NoDup (districts_of m s)) →
  ∀ s, NoDup (districts_of (foldl indexed m rs) s).
Proof.
  revert m. induction rs as [|r rs IH]; intros m Hm; cbn [foldl]; [done|].
  apply IH. unfold indexed. destruct (observed r) as [[s' d']|]; [|done].
  by apply with_district_NoDup.
Qed.

Lemma foldl_indexed_dom (rs : list PredictionRecord) m (s : string) :
  is_Some (foldl indexed m rs !! s)
  ↔ is_Some (m !! s) ∨ ∃ r d, r ∈ rs ∧ observed r = Some (s, d).
Proof.
  revert m. induction rs as [|r rs IH]; intros m; cbn [foldl].
  - setoid_rewrite elem_of_nil. naive_solver.
  - rewrite IH. setoid_rewrite elem_of_cons. unfold indexed.
    destruct (observed r) as [[s' d']|] eqn:E.
    + rewrite with_district_dom. naive_solver.
    + naive_solver.
Qed.

Lemma addDistrict_clean m (r : PredictionRecord) :
  clean m →
  addDistrict m r = (if throwing r then None else Some (indexed m r))
  ∧ (throwing r = false → clean (indexed m r)).
Proof.
  intros Hm. rewrite addDistrict_spec. unfold throwing, indexed.
  destruct (observed r) as [[s d]|]; [|done]. unfold read.
  destruct (inherited s) eqn:E.
  - rewrite (Hm s E). done.
  - split; [by destruct (m !! s)|]. intros _ s' Hs'.
    apply eq_None_not_Some. rewrite with_district_dom.
    intros [H| ->]; [|congruence]. rewrite (Hm s' Hs') in H. by destruct H.
Qed.

Lemma foldl_addDistrict_None (rs : list PredictionRecord) :
  foldl (λ m record, m ≫= λ m, addDistrict m record) None rs = None.
Proof. by induction rs. Qed.

Lemma foldl_addDistrict_clean (rs : list PredictionRecord) m :
  clean m →
  foldl (λ m record, m ≫= λ m, addDistrict m record) (Some m) rs
  = if existsb throwing rs then None else Some (foldl indexed m rs).
Proof.
  revert m. induction rs as [|r rs IH]; intros m Hm; [done|].
  cbn [foldl existsb mbind option_bind].
  destruct (addDistrict_clean m r Hm) as [-> Hclean].
  destruct (throwing r); cbn [orb].
  - apply foldl_addDistrict_None.
  - by apply IH, Hclean.
Qed.

Lemma clean_empty : clean ∅.
Proof. intros s _. apply lookup_empty. Qed.

Lemma populateStateDistrictMap_clean (rs : list PredictionRecord) m :
  clean m →
  populateStateDistrictMap (Some rs) m
  = if existsb throwing rs then None
    else Some (sort_defined default_before <$> foldl indexed m rs).
Proof.
  intros Hm. unfold populateStateDistrictMap.
  rewrite foldl_addDistrict_clean by done. by destruct (existsb throwing rs).
Qed.

Lemma index_lookup (rs : list PredictionRecord) (s : string) :
  let index := sort_defined default_before <$> foldl indexed ∅ rs in
  (index !! s = None ↔ ∀ r d, r ∈ rs → observed r ≠ Some (s, d))
  ∧ (∀ districts, index !! s = Some districts →
       NoDup districts
       ∧ StronglySorted (λ a b, String.leb a b = true) districts
       ∧ ∀ d, d ∈ districts ↔ ∃ r, r ∈ rs ∧ observed r = Some (s, d)).
Proof.
  cbn zeta. split.
  - rewrite lookup_fmap, fmap_None, eq_None_not_Some, foldl_indexed_dom.
    rewrite lookup_empty. split.
    + intros Hno r d Hr Hobs. apply Hno. right. eauto.
    + intros Hno [[? [=]]|(r & d & Hr & Hobs)]. by eapply Hno.
  - intros districts. rewrite lookup_fmap, fmap_Some.
    intros (l & Hl & ->).
    assert (districts_of (foldl indexed ∅ rs) s = l) as El
      by (unfold districts_of; by rewrite Hl).
    split_and!.
    + rewrite sort_defined_Permutation, <- El.
      apply foldl_indexed_NoDup. intros s'. unfold districts_of.
      rewrite lookup_empty. constructor.
    + apply default_sort_StronglySorted.
    + intros d. rewrite sort_defined_Permutation, <- El.
      rewrite foldl_indexed_districts. unfold districts_of at 1.
      rewrite lookup_empty. cbn [default]. rewrite elem_of_nil. naive_solver.
Qed.

Lemma populateStateDistrictMap_Some (rs : list PredictionRecord) index :
  populateStateDistrictMap (Some rs) ∅ = Some index →
  existsb throwing rs = false
  ∧ index = sort_defined default_before <$> foldl indexed ∅ rs.
Proof.
  rewrite populateStateDistrictMap_clean by apply clean_empty.
  destruct (existsb throwing rs); [done|]. by intros [= <-].
Qed.

(** C8 fails on the code for a state whose name every object inherits: the
    loop reads the inherited property, finds no [includes] on it and throws,
    where a state such as "Bihar" is indexed with its district. *)
Theorem populateStateDistrictMap_constructor :
  populateStateDistrictMap (Some [constructor_record]) ∅ = None
  ∧ populateStateDistrictMap
      (Some [observation "Bihar" (Some "X") 2025 3 1.0]) ∅
    = Some {[ "Bihar" := ["X"] ]}
  ∧ populateStateDistrictMap
      (Some [observation "Bihar" (Some "X") 2025 3 1.0; constructor_record;
             observation "Bihar" None 2025 3 1.0]) ∅
    = None.
Proof. split_and!; vm_compute; reflexivity. Qed.

(** ** Facts about decimal strings *)

Lemma split_digits_dash (d : uint) (rest : string) :
  split "-" (NilEmpty.string_of_uint d ++ String "-" rest)
  = NilEmpty.string_of_uint d :: split "-" rest.
Proof.
  induction d; cbn [NilEmpty.string_of_uint]; [done|..];
    change (String ?c ?s ++ ?t) with (String c (s ++ t));
    change (split "-" (String ?c ?s))
      with (match split "-" s with
            | piece :: pieces => String c piece :: pieces
            | [] => [String c EmptyString]
            end); by rewrite IHd.
Qed.

Lemma split_digits (d : uint) :
  split "-" (NilEmpty.string_of_uint d) = [NilEmpty.string_of_uint d].
Proof.
  induction d; cbn [NilEmpty.string_of_uint]; [done|..];
    change (split "-" (String ?c ?s))
      with (match split "-" s with
            | piece :: pieces => String c piece :: pieces
            | [] => [String c EmptyString]
            end); by rewrite IHd.
Qed.

Lemma selectedPeriod_period_string (y m : Z) :
  0 <= y → 0 <= m → selectedPeriod (period_string y m) = (Num y, Num m).
Proof.
  intros Hy Hm. unfold selectedPeriod, period_string.
  destruct (String_of_Z_nonneg y Hy) as (dy & -> & <-).
  destruct (String_of_Z_nonneg m Hm) as (dm & -> & <-).
  change ("-" ++ ?s) with (String "-" s).
  rewrite split_digits_dash, split_digits. cbn [fmap list_fmap at_index lookup list_lookup].
  by rewrite !Number_digits.
Qed.

Lemma period_key_period_string (y m : Z) :
  0 <= y → 0 <= m → period_key (period_string y m) = Num (y * 12 + m).
Proof.
  intros Hy Hm. pose proof (selectedPeriod_period_string y m Hy Hm) as H.
  unfold selectedPeriod in H. unfold period_key.
  injection H as -> ->. done.
Qed.

Lemma period_of_period_string (y m : Z) :
  0 <= y → 0 <= m → period_of_string (period_string y m) = (y, m).
Proof.
  intros Hy Hm. unfold period_of_string.
  by rewrite selectedPeriod_period_string.
Qed.

(** ** Facts about the period dropdown *)

Lemma in_dropdown_range_spec (p : PredictionRecord) :
  in_dropdown_range p = true ↔ ∃ y, year p = Some y ∧ 2024 <= y <= 2026.
Proof.
  unfold in_dropdown_range. destruct (year p) as [y|]; cbn [prop rel].
  - rewrite andb_true_iff, Z.geb_le, Z.leb_le. naive_solver.
  - naive_solver.
Qed.

Lemma ymSet_fold_elem (data : list PredictionRecord) (acc : list string) (s : string) :
  s ∈ foldl (λ ym p, if in_dropdown_range p
                     then Set_add ym (template (year p) ++ "-" ++ template (month p))
                     else ym) acc data
  ↔ s ∈ acc ∨ ∃ p, p ∈ data ∧ in_dropdown_range p = true
                   ∧ s = template (year p) ++ "-" ++ template (month p).
Proof.
  revert acc. induction data as [|q data IH]; intros acc; cbn [foldl].
  - setoid_rewrite elem_of_nil. naive_solver.
  - rewrite IH. setoid_rewrite elem_of_cons.
    destruct (in_dropdown_range q) eqn:E.
    + rewrite Set_add_elem. naive_solver.
    + split; [naive_solver|].
      intros [?|(p & [->|?] & ? & ?)]; [by left|congruence|right; eauto].
Qed.

Lemma ymSet_fold_NoDup (data : list PredictionRecord) (acc : list string) :
  NoDup acc →
  NoDup (foldl (λ ym p, if in_dropdown_range p
                        then Set_add ym (template (year p) ++ "-" ++ template (month p))
                        else ym) acc data).
Proof.
  revert acc. induction data as [|q data IH]; intros acc Hacc; cbn [foldl]; [done|].
  apply IH. destruct (in_dropdown_range q); [by apply Set_add_NoDup|done].
Qed.

Lemma ymSet_elem (data : list PredictionRecord) (s : string) :
  s ∈ ymSet data
  ↔ ∃ p, p ∈ data ∧ in_dropdown_range p = true
         ∧ s = template (year p) ++ "-" ++ template (month p).
Proof.
  unfold ymSet. fold in_dropdown_range.
  change (λ (ym : list string) (p : PredictionRecord),
           if rel Z.geb (prop (year p)) (Num 2024) && rel Z.leb (prop (year p)) (Num 2026)
           then Set_add ym (template (year p) ++ "-" ++ template (month p))
           else ym)
    with (λ (ym : list string) (p : PredictionRecord),
           if in_dropdown_range p
           then Set_add ym (template (year p) ++ "-" ++ template (month p))
           else ym).
  rewrite ymSet_fold_elem, elem_of_nil. naive_solver.
Qed.

Lemma ymSet_NoDup (data : list PredictionRecord) : NoDup (ymSet data).
Proof. apply ymSet_fold_NoDup. constructor. Qed.

Lemma ymSet_well_formed (data : list PredictionRecord) :
  (∀ p, p ∈ data → in_dropdown_range p = true → month_in_data_model p) →
  Forall well_formed_period (ymSet data).
Proof.
  intros Hdata. apply Forall_forall. intros s (p & Hp & Hr & ->)%ymSet_elem.
  destruct (Hdata p Hp Hr) as (m & Hm & ?).
  apply in_dropdown_range_spec in Hr as (y & Hy & ?).
  exists y, m. rewrite Hy, Hm. done.
Qed.

Lemma period_before_spec (a b : string) (ya ma yb mb : Z) :
  0 <= ya → 0 <= ma → 0 <= yb → 0 <= mb →
  a = period_string ya ma → b = period_string yb mb →
  period_before a b = Z.leb (ya * 12 + ma) (yb * 12 + mb).
Proof.
  intros ???? -> ->. unfold period_before, comparefn_before, period_comparefn.
  rewrite !period_key_period_string by done. cbn [arith].
  destruct (Z.ltb_spec 0 (ya * 12 + ma - (yb * 12 + mb)));
    destruct (Z.leb_spec (ya * 12 + ma) (yb * 12 + mb)); cbn [negb]; lia.
Qed.

Lemma sorted_periods_StronglySorted (periods : list string) :
  Forall well_formed_period periods →
  StronglySorted
    (λ a b, months_chronological (period_of_string a) (period_of_string b))
    (sort_defined period_before periods).
Proof.
  apply sort_defined_StronglySorted.
  - unfold months_chronological. intros x y z. lia.
  - intros a b (ya & ma & Ea & ? & ?) (yb & mb & Eb & ? & ?).
    rewrite (period_before_spec a b ya ma yb mb) by (done || lia).
    subst. rewrite !period_of_period_string by lia.
    unfold months_chronological. cbn [fst snd]. lia.
  - intros a b (ya & ma & Ea & ? & ?) (yb & mb & Eb & ? & ?).
    rewrite (period_before_spec a b ya ma yb mb) by (done || lia).
    subst. rewrite !period_of_period_string by lia.
    unfold months_chronological. cbn [fst snd]. lia.
Qed.

(** C7: for records whose month is typed by the data model, the periods of
    the dropdown are the distinct (year, month) pairs of the records with a
    year from 2024 to 2026, each written "year-month", in ascending order
    of year*12 + month. *)
Theorem loadMapPredictions_periods (data : list PredictionRecord) :
  (∀ p, p ∈ data → in_dropdown_range p = true → month_in_data_model p) →
  ∃ periods : list (Z * Z),
    sorted (loadMapPredictions data) = (λ ym, period_string ym.1 ym.2) <$> periods
    ∧ NoDup periods
    ∧ (∀ y m, (y, m) ∈ periods
              ↔ 2024 <= y <= 2026
                ∧ ∃ p, p ∈ data ∧ year p = Some y ∧ month p = Some m)
    ∧ StronglySorted months_chronological periods.
Proof.
  intros Hdata. pose proof (ymSet_well_formed data Hdata) as Hwf.
  cbn [loadMapPredictions sorted]. fold period_before.
  set (strings := sort_defined period_before (ymSet data)).
  assert (Forall well_formed_period strings) as Hs.
  { unfold strings. by rewrite sort_defined_Permutation. }
  exists (period_of_string <$> strings). split_and!.
  - rewrite <- list_fmap_compose. rewrite <- (list_fmap_id strings) at 1.
    apply Forall_fmap_ext_1. eapply Forall_impl; [exact Hs|].
    intros s (y & m & -> & ? & ?). cbn [compose].
    by rewrite period_of_period_string by lia.
  - apply NoDup_fmap_2_strong.
    + rewrite Forall_forall in Hs.
      intros a b (ya & ma & -> & ? & ?)%Hs (yb & mb & -> & ? & ?)%Hs.
      rewrite !period_of_period_string by lia. by intros [= -> ->].
    + unfold strings. rewrite sort_defined_Permutation. apply ymSet_NoDup.
  - intros y m. rewrite list_elem_of_fmap. split.
    + intros (s & E & Hin). unfold strings in Hin.
      rewrite sort_defined_Permutation in Hin.
      apply ymSet_elem in Hin as (p & Hp & Hr & ->).
      destruct (Hdata p Hp Hr) as (m' & Hm & ?).
      apply in_dropdown_range_spec in Hr as (y' & Hy & ?).
      rewrite Hy, Hm in E. cbn [template] in E.
      change (String_of_Z y' ++ "-" ++ String_of_Z m')
        with (period_string y' m') in E.
      rewrite period_of_period_string in E by lia. injection E as -> ->.
      eauto.
    + intros (Hy & p & Hp & Eyear & Emonth).
      assert (in_dropdown_range p = true) as Hr
        by (apply in_dropdown_range_spec; eauto).
      destruct (Hdata p Hp Hr) as (m' & Hm & ?).
      assert (m' = m) as -> by congruence.
      exists (period_string y m). split.
      * by rewrite period_of_period_string by lia.
      * unfold strings. rewrite sort_defined_Permutation. apply ymSet_elem.
        exists p. split_and!; [done..|]. by rewrite Eyear, Emonth.
  - apply (StronglySorted_fmap period_of_string
             (λ a b, months_chronological (period_of_string a)
                                          (period_of_string b))); [done|].
    by apply sorted_periods_StronglySorted.
Qed.

(** The input "2024-9", "2024-10", "2024-1" comes out as "2024-1", "2024-9",
    "2024-10". *)
Lemma loadMapPredictions_three_periods :
  sorted (loadMapPredictions three_periods) = ["2024-1"; "2024-9"; "2024-10"]
  ∧ ∃ periods : list (Z * Z),
      sorted (loadMapPredictions three_periods)
        = (λ ym, period_string ym.1 ym.2) <$> periods
      ∧ StronglySorted months_chronological periods.
Proof.
  split; [vm_compute; reflexivity|].
  destruct (loadMapPredictions_periods three_periods) as (periods & E & _ & _ & S).
  - intros p Hp _. unfold three_periods in Hp.
    rewrite !elem_of_cons, elem_of_nil in Hp.
    destruct Hp as [->|[->|[->|[]]]]; eexists; (split; [reflexivity|lia]).
  - exists periods. split; [exact E|exact S].
Defined.

(** ** Order independence of the index builder *)

Lemma new_Set_fold_elem {A} `{EqDecision A} (xs acc : list A) (x : A) :
  x ∈ foldl Set_add acc xs ↔ x ∈ acc ∨ x ∈ xs.
Proof.
  revert acc. induction xs as [|y xs IH]; intros acc; cbn [foldl].
  - rewrite elem_of_nil. naive_solver.
  - rewrite IH, Set_add_elem, elem_of_cons. naive_solver.
Qed.

Lemma new_Set_elem {A} `{EqDecision A} (xs : list A) (x : A) :
  x ∈ new_Set xs ↔ x ∈ xs.
Proof. unfold new_Set. rewrite new_Set_fold_elem, elem_of_nil. naive_solver. Qed.

Lemma new_Set_NoDup {A} `{EqDecision A} (xs : list A) : NoDup (new_Set xs).
Proof.
  unfold new_Set. generalize (NoDup_nil_2 (A:=A)). generalize (@nil A).
  induction xs as [|y xs IH]; intros acc Hacc; cbn [foldl]; [done|].
  by apply IH, Set_add_NoDup.
Qed.

Lemma new_Set_Permutation {A} `{EqDecision A} (xs ys : list A) :
  xs ≡ₚ ys → new_Set xs ≡ₚ new_Set ys.
Proof.
  intros Hp. apply NoDup_Permutation; [apply new_Set_NoDup..|].
  intros x. by rewrite !new_Set_elem, Hp.
Qed.

Lemma length_defined_le {A} (xs : list (option A)) :
  (length (omap id xs) <= length xs)%nat.
Proof.
  induction xs as [|[a|] xs IH]; cbn [omap list_omap id length]; lia.
Qed.

Lemma undefined_last_replicate {A} (xs : list (option A)) :
  List.filter (λ x, negb (bool_decide (is_Some x))) xs
  = replicate (length xs - length (omap id xs)) None.
Proof.
  induction xs as [|[a|] xs IH]; [done|exact IH|].
  cbn [List.filter]. rewrite bool_decide_false by (by intros [? ?]).
  cbn [negb omap list_omap id length]. rewrite IH.
  assert (length (omap id xs) <= length xs)%nat by apply length_defined_le.
  replace (S (length xs) - length (omap id xs))%nat
    with (S (length xs - length (omap id xs))) by lia.
  done.
Qed.

Lemma Array_sort_default_Permutation (xs ys : list (option string)) :
  xs ≡ₚ ys → Array_sort default_before xs = Array_sort default_before ys.
Proof.
  intros Hp. unfold Array_sort. rewrite !undefined_last_replicate.
  assert (omap id xs ≡ₚ omap id ys) as Ho by (by rewrite Hp).
  f_equal; [f_equal|by rewrite Ho, Hp].
  apply (StronglySorted_unique_strong (λ a b, default_before a b = true)).
  - intros a b _ _. apply String.leb_antisym.
  - apply default_sort_StronglySorted.
  - apply default_sort_StronglySorted.
  - by rewrite !sort_defined_Permutation.
Qed.

Lemma ymSet_Permutation (data data' : list PredictionRecord) :
  data ≡ₚ data' → ymSet data ≡ₚ ymSet data'.
Proof.
  intros Hp. apply NoDup_Permutation; [apply ymSet_NoDup..|].
  intros s. rewrite !ymSet_elem. by setoid_rewrite Hp.
Qed.

Lemma well_formed_period_key_inj (a b : string) :
  well_formed_period a → well_formed_period b →
  months_chronological (period_of_string a) (period_of_string b) →
  months_chronological (period_of_string b) (period_of_string a) →
  a = b.
Proof.
  intros (ya & ma & -> & ? & ?) (yb & mb & -> & ? & ?).
  rewrite !period_of_period_string by lia. unfold months_chronological.
  cbn [fst snd]. intros ? ?.
  assert (ya = yb) as -> by lia. assert (ma = mb) as -> by lia. done.
Qed.

Lemma existsb_Permutation {A} (f : A → bool) (l l' : list A) :
  l ≡ₚ l' → existsb f l = existsb f l'.
Proof.
  induction 1 as [|x l l' _ IH|x y l|l l' l'' _ IH _ IH']; cbn [existsb].
  - done.
  - by rewrite IH.
  - by destruct (f x), (f y).
  - by rewrite IH.
Qed.

Lemma index_Permutation (data data' : list PredictionRecord) :
  data ≡ₚ data' →
  sort_defined default_before <$> foldl indexed ∅ data
  = sort_defined default_before <$> foldl indexed ∅ data'.
Proof.
  intros Hp. apply map_eq. intros s.
  destruct (index_lookup data s) as (Hnone & Hsome).
  destruct (index_lookup data' s) as (Hnone' & Hsome').
  cbn zeta in *.
  destruct ((sort_defined default_before <$> foldl indexed ∅ data) !! s)
    as [l|] eqn:E.
  - destruct ((sort_defined default_before <$> foldl indexed ∅ data') !! s)
      as [l'|] eqn:E'.
    + destruct (Hsome l eq_refl) as (Hnd & Hs & Hin).
      destruct (Hsome' l' eq_refl) as (Hnd' & Hs' & Hin').
      f_equal. apply (StronglySorted_unique_strong _ _ _
                        (λ a b _ _, String.leb_antisym a b) Hs Hs').
      apply NoDup_Permutation; [done..|].
      intros d. rewrite Hin, Hin'. by setoid_rewrite Hp.
    + exfalso. destruct (Hsome l eq_refl) as (_ & _ & Hin).
      assert (∃ d, d ∈ l) as [d Hd].
      { destruct l as [|d l]; [|exists d; by left].
        assert (Some [] = None :> option (list string)); [|done].
        apply Hnone. intros r d Hr Hobs.
        assert (d ∈ []) as Hd%elem_of_nil by (apply Hin; eauto). done. }
      apply Hin in Hd as (r & Hr & Hobs).
      rewrite Hp in Hr. by eapply (proj1 Hnone' eq_refl).
  - symmetry. apply Hnone'. intros r d Hr. rewrite <- Hp in Hr.
    by apply (proj1 Hnone eq_refl).
Qed.

Lemma populateStateDistrictMap_Permutation (data data' : list PredictionRecord) :
  data ≡ₚ data' →
  populateStateDistrictMap (Some data) ∅ = populateStateDistrictMap (Some data') ∅.
Proof.
  intros Hp. rewrite !populateStateDistrictMap_clean by apply clean_empty.
  rewrite (existsb_Permutation throwing data data' Hp).
  by rewrite (index_Permutation data data' Hp).
Qed.

(** C9: for records whose month is typed by the data model, the sorted state
    list, the sorted periods and the state-district index (or the error the
    loop ends in) do not depend on the order of the records. *)
Theorem index_builder_order_independent (data data' : list PredictionRecord) :
  data ≡ₚ data' →
  (∀ p, p ∈ data → in_dropdown_range p = true → month_in_data_model p) →
  stateOptions (loadMapPredictions data) = stateOptions (loadMapPredictions data')
  ∧ sorted (loadMapPredictions data) = sorted (loadMapPredictions data')
  ∧ populateStateDistrictMap (Some data) ∅
    = populateStateDistrictMap (Some data') ∅
  ∧ populateStates <$> populateStateDistrictMap (Some data) ∅
    = populateStates <$> populateStateDistrictMap (Some data') ∅.
Proof.
  intros Hp Hdata.
  assert (∀ p, p ∈ data' → in_dropdown_range p = true → month_in_data_model p)
    as Hdata' by (intros p; rewrite <- Hp; apply Hdata).
  split_and!.
  - cbn [loadMapPredictions stateOptions]. unfold statesWithData.
    apply Array_sort_default_Permutation, new_Set_Permutation.
    by rewrite Hp.
  - cbn [loadMapPredictions sorted]. fold period_before.
    pose proof (ymSet_well_formed data Hdata) as Hwf.
    pose proof (ymSet_well_formed data' Hdata') as Hwf'.
    apply (StronglySorted_unique_strong
             (λ a b, months_chronological (period_of_string a)
                                          (period_of_string b))).
    + intros a b Ha Hb. apply well_formed_period_key_inj.
      * rewrite sort_defined_Permutation in Ha.
        by eapply (proj1 (Forall_forall _ _) Hwf).
      * rewrite sort_defined_Permutation in Hb.
        by eapply (proj1 (Forall_forall _ _) Hwf').
    + by apply sorted_periods_StronglySorted.
    + by apply sorted_periods_StronglySorted.
    + rewrite !sort_defined_Permutation. by apply ymSet_Permutation.
  - by apply populateStateDistrictMap_Permutation.
  - by rewrite (populateStateDistrictMap_Permutation data data').
Qed.

Lemma index_builder_order_independent_three_periods :
  sorted (loadMapPredictions three_periods)
  = sorted (loadMapPredictions (rev three_periods))
  ∧ populateStateDistrictMap (Some three_periods) ∅
    = populateStateDistrictMap (Some (rev three_periods)) ∅.
Proof.
  destruct (index_builder_order_independent three_periods (rev three_periods))
    as (_ & Hs & Hm & _).
  - apply Permutation_rev.
  - intros p Hp _. unfold three_periods in Hp.
    rewrite !elem_of_cons, elem_of_nil in Hp.
    destruct Hp as [->|[->|[->|[]]]]; eexists; (split; [reflexivity|lia]).
  - split; [exact Hs|exact Hm].
Defined.

(** ** Further facts about the map view *)

(** The classification is monotone: a larger severity never gets a milder
    category. *)
Theorem severityToCategory_monotone (s t : Q) :
  (s <= t)%Q →
  (categoryRank (severityToCategory (Num s))
   <= categoryRank (severityToCategory (Num t)))%nat.
Proof.
  intros Hst. by_thresholds; cbn; try lia; lra.
Qed.

Lemma severityToCategory_monotone_example :
  (categoryRank (severityToCategory (Num 1.0%Q))
   <= categoryRank (severityToCategory (Num 3.0%Q)))%nat.
Proof. apply severityToCategory_monotone. lra. Defined.

Lemma severityToCategory_convex (a b x : Q) (c : string) :
  severityToCategory (Num a) = c → severityToCategory (Num b) = c →
  (a <= x <= b ∨ b <= x <= a)%Q →
  severityToCategory (Num x) = c.
Proof.
  intros <-. by_thresholds; try discriminate; intros _ [[??]|[??]];
    try reflexivity; lra.
Qed.

Lemma medianSeverity_middle (sel : list PredictionRecord) (values : list Q) :
  sel ≠ [] →
  drought_severity <$> sel = Some <$> values →
  ∃ a b, a ∈ values ∧ b ∈ values
         ∧ (medianSeverity sel = Num a
            ∨ medianSeverity sel = Num ((a + b) / 2)%Q).
Proof.
  intros Hne Hvalues. unfold medianSeverity. rewrite Hvalues.
  assert (values ≠ []) as Hv by (intros ->; by destruct sel).
  destruct (median_ascending exact values Hv) as (a & b & Ha & Hb & ->).
  apply list_elem_of_lookup_2 in Ha, Hb.
  rewrite sort_defined_Permutation in Ha, Hb.
  destruct (Nat.odd _).
  - exists b, b. split_and!; eauto.
  - exists a, b. split_and!; eauto.
Qed.



(** When every selected district falls in the same category, the state gets
    that category. *)
Theorem uniform_category (sel : list PredictionRecord) (values : list Q)
    (category : string) :
  sel ≠ [] →
  drought_severity <$> sel = Some <$> values →
  (∀ v, v ∈ values → severityToCategory (Num v) = category) →
  severityToCategory (medianSeverity sel) = category.
Proof.
  intros Hne Hvalues Hcat.
  destruct (medianSeverity_middle sel values Hne Hvalues)
    as (a & b & Ha%Hcat & Hb%Hcat & [->| ->]); [done|].
  apply (severityToCategory_convex a b); [done..|].
  destruct (Qlt_le_dec a b).
  - left. split; [apply Qle_shift_div_l|apply Qle_shift_div_r]; lra.
  - right. split; [apply Qle_shift_div_l|apply Qle_shift_div_r]; lra.
Qed.

Lemma uniform_category_example :
  severityToCategory (medianSeverity severe_pair) = "Severe Drought".
Proof.
  apply (uniform_category severe_pair [3.0; 3.5]%Q);
    [discriminate|reflexivity|].
  intros v Hv. rewrite !elem_of_cons, elem_of_nil in Hv.
  destruct Hv as [->|[->|[]]]; reflexivity.
Defined.

Lemma Array_sort_undefined {A} (before : A → A → bool) (n : nat) :
  Array_sort before (replicate n None) = replicate n None.
Proof.
  unfold Array_sort.
  assert (omap id (replicate n (@None A)) = []) as ->
    by (induction n; [done|exact IHn]).
  cbn [sort_defined foldr fmap list_fmap app].
  induction n as [|n IH]; [done|]. cbn [replicate List.filter].
  rewrite bool_decide_false by (by intros [? ?]). cbn [negb]. by rewrite IH.
Qed.

Lemma element_undefined {A} (n i : nat) :
  element (replicate n (@None A)) i = undefined.
Proof.
  unfold element. destruct (replicate n None !! i) as [[a|]|] eqn:E; [|done..].
  by apply lookup_replicate in E as [[=] _].
Qed.

Lemma medianSeverity_without_severity (sel : list PredictionRecord) :
  (∀ p, p ∈ sel → drought_severity p = None) →
  medianSeverity sel
  = if Nat.eqb (length sel mod 2) 0 then NaN else undefined.
Proof.
  intros Hnone. unfold medianSeverity, median.
  assert (drought_severity <$> sel = replicate (length sel) None) as ->.
  { induction sel as [|p sel IH]; [done|]. cbn [fmap list_fmap length replicate].
    rewrite (Hnone p) by (by left). f_equal. apply IH.
    intros q Hq. apply Hnone. by right. }
  rewrite Array_sort_undefined, length_replicate, !element_undefined.
  by destruct (Nat.eqb (length sel mod 2) 0).
Qed.

(** Records without [drought_severity] are not skipped: an even number of
    them makes the median [NaN], which is classified "Extreme Drought" and
    drawn in its color; an odd number makes it [undefined] and [toFixed]
    throws. *)
Theorem showStateMarker_without_severity (data : list PredictionRecord)
    (st dateStr : string) (coordinates : Q * Q) :
  let sel := statePredictions data st (selectedPeriod dateStr).1
                              (selectedPeriod dateStr).2 in
  sel ≠ [] →
  (∀ p, p ∈ sel → drought_severity p = None) →
  STATE_COORDINATES !! st = Some coordinates →
  (Nat.eqb (length sel mod 2) 0 = true →
   ∃ circle,
     outcome (showStateMarker data st dateStr) = Circle circle (coordinates, 6)
     ∧ popup_median circle = NaN
     ∧ popup_category circle = "Extreme Drought"
     ∧ fillColor circle = "#E60000")
  ∧ (Nat.eqb (length sel mod 2) 0 = false →
     outcome (showStateMarker data st dateStr) = ToFixedError).
Proof.
  cbn zeta. intros Hne Hnone Hcenter. unfold showStateMarker.
  destruct (selectedPeriod dateStr) as [y m]. cbn [fst snd outcome] in *.
  set (sel := statePredictions data st y m) in *.
  rewrite Hcenter, (medianSeverity_without_severity sel Hnone).
  destruct sel as [|p sel']; [done|]. cbn [length Nat.eqb].
  split; intros ->.
  - eexists. split; [reflexivity|]. split_and!; reflexivity.
  - reflexivity.
Qed.

Lemma showStateMarker_without_severity_goa :
  ∃ circle,
    outcome (showStateMarker goa_without_severity "Goa" "2025-01")
      = Circle circle ((15.2993, 74.1240)%Q, 6)
    ∧ popup_category circle = "Extreme Drought".
Proof.
  destruct (showStateMarker_without_severity goa_without_severity
              "Goa" "2025-01" (15.2993, 74.1240)%Q) as [Heven _].
  - discriminate.
  - intros p Hp.
    match type of Hp with
    | _ ∈ ?sel =>
        assert (sel = goa_without_severity) as E by (vm_compute; reflexivity);
        rewrite E in Hp
    end.
    unfold goa_without_severity in Hp. rewrite !elem_of_cons, elem_of_nil in Hp.
    destruct Hp as [->|[->|[]]]; reflexivity.
  - reflexivity.
  - destruct (Heven eq_refl) as (circle & H & _ & Hc & _). eauto.
Defined.

(** A circle is drawn only at the table coordinate of the selected state,
    with the view centred on it at zoom 6; its popup reports the number of
    matching records, which is not zero, and the category of the median as
    computed, before [toFixed(2)] rounds it for the popup: 2.804 is printed
    as 2.80 beside "Severe Drought", where 2.80 itself is "Moderate
    Drought". *)
Theorem showStateMarker_circle (data : list PredictionRecord)
    (st dateStr : string) (circle : circleMarker) (setView : (Q * Q) * Z) :
  outcome (showStateMarker data st dateStr) = Circle circle setView →
  STATE_COORDINATES !! st = Some (center circle)
  ∧ setView = (center circle, 6)
  ∧ popup_state circle = st
  ∧ popup_samples circle = found (showStateMarker data st dateStr)
  ∧ (0 < popup_samples circle <= length data)%nat
  ∧ popup_category circle = severityToCategory (popup_median circle)
  ∧ popup_median circle ≠ undefined.
Proof.
  unfold showStateMarker. destruct (selectedPeriod dateStr) as [y m].
  cbn [outcome found]. set (sel := statePredictions data st y m).
  assert (length sel <= length data)%nat as Hle.
  { unfold sel, statePredictions. apply List.filter_length_le. }
  destruct sel as [|p sel'] eqn:E; [discriminate|]. cbn [length Nat.eqb] in *.
  generalize (DROUGHT_COLORS !! severityToCategory (medianSeverity (p :: sel'))).
  intros col.
  destruct (STATE_COORDINATES !! st) as [c|]; [|discriminate].
  destruct (medianSeverity (p :: sel')) eqn:Em; [discriminate|..];
    intros [= <- <-]; cbn; (split_and!; [done..|lia|lia|done|done]).
Qed.

Lemma showStateMarker_circle_goa :
  ∃ circle setView,
    outcome (showStateMarker goa_2_804 "Goa" "2025-01") = Circle circle setView
    ∧ STATE_COORDINATES !! "Goa" = Some (center circle)
    ∧ popup_samples circle = 1%nat
    ∧ popup_median circle = Num 2.804%Q
    ∧ toFixed 2 2.804%Q = "2.80"
    ∧ popup_category circle = "Severe Drought"
    ∧ severityToCategory (Num 2.80%Q) = "Moderate Drought".
Proof.
  eexists _, _. split; [vm_compute; reflexivity|].
  match goal with
  | |- STATE_COORDINATES !! _ = Some (center ?c) ∧ _ =>
      destruct (showStateMarker_circle goa_2_804 "Goa" "2025-01" c
                  (15.2993%Q, 74.1240%Q, 6))
        as (Hc & _ & _ & Hs & _ & Hcat & _); [vm_compute; reflexivity|]
  end.
  split; [exact Hc|]. split; [reflexivity|]. split; [reflexivity|].
  split; [vm_compute; reflexivity|]. split; [|reflexivity].
  rewrite Hcat. reflexivity.
Defined.

(** A state that is neither in [STATE_COORDINATES] nor the name of a property
    every object inherits is never drawn: with records the function logs and
    returns, without records it leaves the view where it is. *)
Theorem showStateMarker_unknown_state (data : list PredictionRecord)
    (st dateStr : string) :
  inherited st = false →
  STATE_COORDINATES !! st = None →
  read STATE_COORDINATES st = Missing
  ∧ ((found (showStateMarker data st dateStr) = 0%nat
      ∧ outcome (showStateMarker data st dateStr) = NoRecords None)
     ∨ ((0 < found (showStateMarker data st dateStr))%nat
        ∧ ∃ category,
            outcome (showStateMarker data st dateStr) = NoCenter category
            ∧ category ∈ classifierCategories)).
Proof.
  intros Hown Hst. split; [unfold read; by rewrite Hst, Hown|].
  unfold showStateMarker. destruct (selectedPeriod dateStr) as [y m].
  cbn [found outcome]. rewrite Hst.
  destruct (statePredictions data st y m) as [|p sel'] eqn:E.
  - left. done.
  - right. cbn [length Nat.eqb]. split; [lia|].
    generalize (DROUGHT_COLORS !! severityToCategory (medianSeverity (p :: sel'))).
    intros _. eexists. split; [reflexivity|]. apply severityToCategory_cases.
Qed.

Lemma showStateMarker_unknown_state_atlantis :
  outcome (showStateMarker [observation "Atlantis" None 2025 3 1.0]
                           "Atlantis" "2025-03")
  = NoCenter "Slightly Dry".
Proof.
  destruct (showStateMarker_unknown_state
              [observation "Atlantis" None 2025 3 1.0] "Atlantis" "2025-03"
              eq_refl eq_refl) as [_ [[H _]|[_ (c & H & _)]]].
  - vm_compute in H. discriminate H.
  - rewrite H. vm_compute in H. by injection H as <-.
Defined.

(** ** Facts about the dropdowns and the layers of the map *)

Lemma found_positive (data : list PredictionRecord) (p : PredictionRecord)
    (st dateStr : string) (y m : Z) :
  selectedPeriod dateStr = (Num y, Num m) →
  p ∈ data → state p = Some st → year p = Some y → month p = Some m →
  (0 < found (showStateMarker data st dateStr))%nat.
Proof.
  intros Hperiod Hp Hst Hy Hm. unfold showStateMarker. rewrite Hperiod.
  cbn [found].
  assert (p ∈ statePredictions data st (Num y) (Num m)) as Hsel
    by (apply statePredictions_spec; done).
  destruct (statePredictions data st (Num y) (Num m));
    [by apply elem_of_nil in Hsel|cbn [length]; lia].
Qed.

(** Every period of the data has its option in the date dropdown: the value
    is "year-month" with the month padded to two digits, the text is the
    short month name and the year, and selecting it with a state that has a
    record for this period finds at least that record. *)
Theorem dateSelectOptions_find_records (data : list PredictionRecord)
    (p : PredictionRecord) (st : string) (y m : Z) :
  p ∈ data → state p = Some st →
  year p = Some y → 2024 <= y <= 2026 →
  month p = Some m → 1 <= m <= 12 →
  ∃ o, o ∈ dateSelectOptions data
       ∧ option_value o = String_of_Z y ++ "-" ++ padStart 2 "0" (String_of_Z m)
       ∧ option_textContent o
         = default "" (MapView.monthNames !! Z.to_nat (m - 1)) ++ " "
           ++ String_of_Z y
       ∧ selectedPeriod (option_value o) = (Num y, Num m)
       ∧ (0 < found (showStateMarker data st (option_value o)))%nat.
Proof.
  intros Hp Hst Hy Hyr Hm Hmr.
  assert (renderDateOption (period_string y m) ∈ dateSelectOptions data) as Hin.
  { unfold dateSelectOptions. apply list_elem_of_fmap_2.
    cbn [loadMapPredictions sorted]. rewrite sort_defined_Permutation.
    apply ymSet_elem. exists p. split; [done|]. split.
    - apply in_dropdown_range_spec. eauto.
    - by rewrite Hy, Hm. }
  assert (renderDateOption (period_string y m)
          = {| option_value :=
                 String_of_Z y ++ "-" ++ padStart 2 "0" (String_of_Z m);
               option_textContent :=
                 default "" (MapView.monthNames !! Z.to_nat (m - 1)) ++ " "
                   ++ String_of_Z y |}
          ∧ selectedPeriod
              (String_of_Z y ++ "-" ++ padStart 2 "0" (String_of_Z m))
            = (Num y, Num m)) as [Hrender Hback].
  { assert (y = 2024 ∨ y = 2025 ∨ y = 2026) as Hys by lia.
    assert (m = 1 ∨ m = 2 ∨ m = 3 ∨ m = 4 ∨ m = 5 ∨ m = 6 ∨ m = 7 ∨ m = 8
            ∨ m = 9 ∨ m = 10 ∨ m = 11 ∨ m = 12) as Hms by lia.
    destruct Hys as [->|[->| ->]];
      repeat (destruct Hms as [->|Hms]; [split; vm_compute; reflexivity|]);
      subst m; split; vm_compute; reflexivity. }
  eexists. split; [exact Hin|]. rewrite Hrender. cbn [option_value option_textContent].
  split_and!; [done..|].
  by eapply found_positive.
Qed.

Lemma dateSelectOptions_find_records_bihar :
  ∃ o, o ∈ dateSelectOptions bihar_2025_03
       ∧ option_value o = "2025-03" ∧ option_textContent o = "Mar 2025"
       ∧ (0 < found (showStateMarker bihar_2025_03 "Bihar" (option_value o)))%nat.
Proof.
  destruct (dateSelectOptions_find_records bihar_2025_03
              (observation "Bihar" None 2025 3 2.0) "Bihar" 2025 3)
    as (o & Hin & Hv & Ht & _ & Hf);
    [by left|reflexivity|reflexivity|lia|reflexivity|lia|].
  exists o. split_and!; [done|exact Hv|exact Ht|exact Hf].
Defined.

Lemma defined_NoDup {A} (xs : list (option A)) : NoDup xs → NoDup (omap id xs).
Proof.
  induction 1 as [|[a|] xs Hx _ IH]; cbn [omap list_omap id]; [constructor| |done].
  constructor; [|done]. rewrite list_elem_of_omap.
  intros (x & Hin & E). cbn [id] in E. by subst.
Qed.

Lemma undefined_last_NoDup {A} `{EqDecision A} (xs : list (option A)) :
  NoDup xs →
  List.filter (λ x, negb (bool_decide (is_Some x))) xs
  = if bool_decide (None ∈ xs) then [None] else [].
Proof.
  induction 1 as [|[a|] xs Hx Hnd IH]; cbn [List.filter].
  - done.
  - rewrite bool_decide_true by eauto. cbn [negb]. rewrite IH.
    destruct (decide (None ∈ xs)) as [Hin|Hin].
    + rewrite (bool_decide_true (None ∈ xs)) by done.
      by rewrite bool_decide_true by (by right).
    + rewrite (bool_decide_false (None ∈ xs)) by done.
      rewrite bool_decide_false; [done|].
      rewrite elem_of_cons. naive_solver.
  - rewrite bool_decide_false by (by intros [? ?]). cbn [negb]. rewrite IH.
    rewrite bool_decide_false by done. by rewrite bool_decide_true by (by left).
Qed.

(** The state dropdown of the map lists every state of the data once, in
    ascending order; when some record has no [state], one [undefined] option
    follows the names. *)
Theorem loadMapPredictions_stateOptions (data : list PredictionRecord) :
  ∃ names,
    stateOptions (loadMapPredictions data)
    = ((Some <$> names)
         ++ (if bool_decide (None ∈ state <$> data)
             then [None] else []))%list
    ∧ NoDup names
    ∧ StronglySorted (λ a b, String.leb a b = true) names
    ∧ ∀ s, s ∈ names ↔ ∃ p, p ∈ data ∧ state p = Some s.
Proof.
  cbn [loadMapPredictions stateOptions]. unfold statesWithData, Array_sort.
  set (xs := new_Set (state <$> data)).
  assert (NoDup xs) as Hnd by apply new_Set_NoDup.
  exists (sort_defined default_before (omap id xs)). split_and!.
  - f_equal. rewrite (undefined_last_NoDup xs Hnd).
    assert (None ∈ xs ↔ None ∈ state <$> data) as Hiff.
    { unfold xs. by rewrite new_Set_elem. }
    destruct (decide (None ∈ xs)) as [Hin|Hin].
    + rewrite (bool_decide_true (None ∈ xs)) by done.
      by rewrite bool_decide_true by (by apply Hiff).
    + rewrite (bool_decide_false (None ∈ xs)) by done.
      by rewrite bool_decide_false by (by rewrite <- Hiff).
  - rewrite sort_defined_Permutation. by apply defined_NoDup.
  - apply default_sort_StronglySorted.
  - intros s. rewrite sort_defined_Permutation, list_elem_of_omap.
    unfold xs. setoid_rewrite new_Set_elem. setoid_rewrite list_elem_of_fmap.
    split.
    + intros (x & (p & -> & Hp) & Hx). cbn [id] in Hx. eauto.
    + intros (p & Hp & Hs). exists (Some s). split; [|done]. exists p. done.
Qed.

Lemma updateMap_one_layer (data : list PredictionRecord)
    (st dateSelect : option string) (m : leaflet) :
  one_layer m → one_layer (updateMap data st dateSelect m).
Proof.
  intros [Hlen Hin]. unfold updateMap.
  set (cleared := match droughtLayer m with
                  | Some layer => _
                  | None => m
                  end).
  assert (onMap cleared = []) as Hclear.
  { unfold cleared. destruct (droughtLayer m) as [layer|] eqn:E; cbn [onMap].
    - destruct (onMap m) as [|[l cs] rest]; [done|].
      destruct rest; [|cbn [length] in Hlen; lia].
      destruct (Hin l cs) as [Hl _]; [by left|].
      assert (l = layer) as -> by congruence.
      cbn [List.filter fst]. by rewrite Nat.eqb_refl.
    - destruct (onMap m) as [|[l cs] rest]; [done|].
      destruct (Hin l cs) as [Hl _]; [by left|]. congruence. }
  assert (one_layer cleared) as Hc.
  { split; rewrite Hclear; [cbn; lia|]. intros ?? []%elem_of_nil. }
  destruct st as [st|]; [|done].
  destruct (truthy st); [|done].
  unfold showStateMarker_on.
  destruct (outcome (showStateMarker data st _)) as [sv|c| |circle sv];
    (split; cbn [onMap droughtLayer]; rewrite Hclear; cbn [app length]; [lia|]);
    intros layer circles Hl.
  - apply list_elem_of_singleton in Hl. injection Hl as -> ->.
    split; [done|cbn [length]; lia].
  - by apply elem_of_nil in Hl.
  - by apply elem_of_nil in Hl.
  - apply list_elem_of_singleton in Hl. injection Hl as -> ->.
    split; [done|cbn [length]; lia].
Qed.

(** However the controls are used, the map shows at most one drought layer,
    it is the one [droughtLayer] refers to, and it holds at most one circle;
    after an update with no state selected the map shows none. *)
Theorem updateMap_single_layer (events : list controlEvent) :
  one_layer (updateMaps events)
  ∧ ∀ data dateSelect,
      onMap (updateMap data (Some "") dateSelect (updateMaps events)) = []
      ∧ onMap (updateMap data None dateSelect (updateMaps events)) = [].
Proof.
  assert (one_layer (updateMaps events)) as Hinv.
  { unfold updateMaps.
    assert (one_layer initMap) as H0.
    { split; [cbn; lia|]. intros ?? []%elem_of_nil. }
    revert H0. generalize initMap.
    induction events as [|e events IH]; intros m Hm; cbn [foldl]; [done|].
    by apply IH, updateMap_one_layer. }
  split; [done|]. intros data dateSelect. destruct Hinv as [Hlen Hin].
  set (m := updateMaps events) in *.
  assert (onMap match droughtLayer m with
                | Some layer =>
                    {| view := view m;
                       onMap := List.filter (λ l, negb (Nat.eqb (fst l) layer))
                                            (onMap m);
                       droughtLayer := None; created := created m |}
                | None => m
                end = []) as Hclear.
  { destruct (droughtLayer m) as [layer|] eqn:E; cbn [onMap].
    - destruct (onMap m) as [|[l cs] rest]; [done|].
      destruct rest; [|cbn [length] in Hlen; lia].
      destruct (Hin l cs) as [Hl _]; [by left|].
      assert (l = layer) as -> by congruence.
      cbn [List.filter fst]. by rewrite Nat.eqb_refl.
    - destruct (onMap m) as [|[l cs] rest]; [done|].
      destruct (Hin l cs) as [Hl _]; [by left|]. congruence. }
  split; exact Hclear.
Qed.

(** ** Further facts about the prediction panel *)

Lemma populateStates_elem (m : gmap string (list string)) (s : string) :
  s ∈ populateStates m ↔ is_Some (m !! s).
Proof.
  unfold populateStates. rewrite sort_defined_Permutation, list_elem_of_fmap.
  split.
  - intros ([k l] & -> & Hin). apply elem_of_map_to_list in Hin. eauto.
  - intros [l Hl]. exists (s, l). split; [done|]. by apply elem_of_map_to_list.
Qed.

Lemma observed_nonempty (r : PredictionRecord) (s d : string) :
  observed r = Some (s, d) → s ≠ "" ∧ d ≠ "".
Proof.
  assert (∀ lower upper name, preferred lower upper = Some name → name ≠ "")
    as Hpref.
  { intros lower upper name. unfold preferred, nonempty.
    destruct lower as [l|]; [destruct (String.eqb_spec l "")|];
      (try by intros [= <-]);
      (destruct upper as [u|]; [|done]);
      (destruct (String.eqb_spec u ""); [done|by intros [= <-]]). }
  unfold observed.
  destruct (preferred (state r) (State r)) as [s'|] eqn:Es; [|done].
  destruct (preferred (district r) (District r)) as [d'|] eqn:Ed; [|done].
  intros [= <- <-]. eauto.
Qed.

Lemma not_throwing (rs : list PredictionRecord) (r : PredictionRecord)
    (s d : string) :
  existsb throwing rs = false → r ∈ rs → observed r = Some (s, d) →
  inherited s = false.
Proof.
  intros Hno Hr Ho. destruct (inherited s) eqn:E; [|done].
  assert (existsb throwing rs = true); [|congruence].
  apply existsb_exists. exists r. split; [by apply list_elem_of_In|].
  unfold throwing. by rewrite Ho.
Qed.

Lemma inherited_truthy (s : string) : inherited s = true → truthy s = true.
Proof.
  unfold inherited. intros Hin%bool_decide_eq_true. unfold Object_prototype in Hin.
  rewrite !elem_of_cons, elem_of_nil in Hin.
  repeat (destruct Hin as [->|Hin]; [reflexivity|]). done.
Qed.

(** The two dropdowns of the panel agree with the data when the index is
    built: a state is offered exactly when some record gives it a district,
    the states are sorted and distinct, and choosing an offered state
    enables the district dropdown with the districts observed for it.  A
    value that is not offered disables the dropdown, unless it is the name
    of an inherited property: then the dropdown is enabled and the function
    throws. *)
Theorem dropdowns_follow_the_data (rs : list PredictionRecord)
    (index : gmap string (list string)) (s : string) :
  populateStateDistrictMap (Some rs) ∅ = Some index →
  NoDup (populateStates index)
  ∧ StronglySorted (λ a b, String.leb a b = true) (populateStates index)
  ∧ (s ∈ populateStates index ↔ ∃ r d, r ∈ rs ∧ observed r = Some (s, d))
  ∧ (s ∈ populateStates index →
     ∃ districts,
       populateDistricts index s
       = {| districtOptions := districts; disabled := false;
            TypeError := false |}
       ∧ districts ≠ []
       ∧ NoDup districts
       ∧ StronglySorted (λ a b, String.leb a b = true) districts
       ∧ ∀ d, d ∈ districts ↔ ∃ r, r ∈ rs ∧ observed r = Some (s, d))
  ∧ (s ∉ populateStates index →
     populateDistricts index s
     = if inherited s
       then {| districtOptions := []; disabled := false; TypeError := true |}
       else {| districtOptions := []; disabled := true; TypeError := false |}).
Proof.
  intros [Hno ->]%populateStateDistrictMap_Some.
  set (index := sort_defined default_before <$> foldl indexed ∅ rs).
  destruct (index_lookup rs s) as [Hnone Hsome].
  fold index in Hnone, Hsome.
  assert (s ∈ populateStates index ↔ ∃ r d, r ∈ rs ∧ observed r = Some (s, d))
    as Hoffered.
  { rewrite populateStates_elem. unfold index.
    rewrite lookup_fmap, fmap_is_Some, foldl_indexed_dom, lookup_empty.
    split; [intros [[? [=]]|?]; done|by right]. }
  split_and!.
  - unfold populateStates. rewrite sort_defined_Permutation.
    apply NoDup_fst_map_to_list.
  - apply default_sort_StronglySorted.
  - exact Hoffered.
  - intros Hin. pose proof Hin as (r & d & Hr & Ho)%Hoffered.
    apply populateStates_elem in Hin as [l Hl].
    destruct (Hsome l Hl) as (Hnd & Hs & Hmem).
    destruct (observed_nonempty r s d Ho) as [Hne _].
    exists l. unfold populateDistricts, read.
    rewrite Hl, (string_truthy s Hne).
    split_and!; [done| |done..].
    intros ->. assert (d ∈ []) as []%elem_of_nil. apply Hmem. eauto.
  - intros Hnot. unfold populateDistricts, read.
    destruct (index !! s) as [l|] eqn:E.
    { exfalso. apply Hnot, populateStates_elem. eauto. }
    destruct (inherited s) eqn:Ei.
    + by rewrite (inherited_truthy s Ei).
    + by destruct (truthy s).
Qed.

Lemma dropdowns_follow_the_data_bihar :
  populateStateDistrictMap (Some [patna_2025_03; gaya_2025_04]) ∅
    = Some bihar_index
  ∧ populateStates bihar_index = ["Bihar"]
  ∧ populateDistricts bihar_index "Bihar"
    = {| districtOptions := ["Gaya"; "Patna"]; disabled := false;
         TypeError := false |}
  ∧ populateDistricts bihar_index "Kerala"
    = {| districtOptions := []; disabled := true; TypeError := false |}
  ∧ populateDistricts bihar_index "toString"
    = {| districtOptions := []; disabled := false; TypeError := true |}.
Proof.
  assert (populateStateDistrictMap (Some [patna_2025_03; gaya_2025_04]) ∅
          = Some bihar_index) as Hindex by (vm_compute; reflexivity).
  assert (populateStates bihar_index = ["Bihar"]) as Hstates
    by (vm_compute; reflexivity).
  split; [exact Hindex|]. split; [exact Hstates|].
  split; [vm_compute; reflexivity|].
  destruct (dropdowns_follow_the_data _ _ "Kerala" Hindex)
    as (_ & _ & _ & _ & Hkerala).
  destruct (dropdowns_follow_the_data _ _ "toString" Hindex)
    as (_ & _ & _ & _ & HtoString).
  split.
  - rewrite Hkerala; [reflexivity|].
    rewrite Hstates. by intros [=]%list_elem_of_singleton.
  - rewrite HtoString; [reflexivity|].
    rewrite Hstates. by intros [=]%list_elem_of_singleton.
Defined.

Lemma insert_sorted_head {A} (before : A → A → bool) (x : A) (xs : list A) :
  Forall (λ y, before x y = true) xs → insert_sorted before x xs = x :: xs.
Proof. intros [|y rest Hy _]; cbn [insert_sorted]; [done|by rewrite Hy]. Qed.

Lemma sort_defined_sorted {A} (before : A → A → bool) (xs : list A) :
  StronglySorted (λ a b, before a b = true) xs → sort_defined before xs = xs.
Proof.
  induction 1 as [|x xs _ IH Hx]; [done|]. cbn [sort_defined foldr].
  change (foldr (insert_sorted before) [] xs) with (sort_defined before xs).
  rewrite IH. by apply insert_sorted_head.
Qed.

Lemma indexed_known m (r : PredictionRecord) :
  (∀ s d, observed r = Some (s, d) →
          ∃ l, m !! s = Some l ∧ d ∈ l) →
  indexed m r = m.
Proof.
  intros Hknown. unfold indexed, with_district.
  destruct (observed r) as [[s d]|]; [|done].
  destruct (Hknown s d eq_refl) as (l & Hl & Hd). rewrite Hl. cbn [default].
  by rewrite bool_decide_true by done.
Qed.

(** Building the index a second time from the same records changes nothing:
    no district is duplicated and the order is kept (and a run that throws
    leaves nothing to build on). *)
Theorem populateStateDistrictMap_again (rs : list PredictionRecord) :
  populateStateDistrictMap (Some rs) ∅ ≫= populateStateDistrictMap (Some rs)
  = populateStateDistrictMap (Some rs) ∅.
Proof.
  destruct (populateStateDistrictMap (Some rs) ∅) as [index|] eqn:Efirst;
    [|done].
  apply populateStateDistrictMap_Some in Efirst as [Hno Hindex].
  cbn [mbind option_bind].
  assert (clean index) as Hclean.
  { intros s Hs. destruct (index_lookup rs s) as [Hnone _].
    rewrite <- Hindex in Hnone. apply Hnone. intros r d Hr Ho.
    pose proof (not_throwing rs r s d Hno Hr Ho). congruence. }
  rewrite populateStateDistrictMap_clean, Hno by done. f_equal.
  assert (∀ rs', rs' ⊆ rs → foldl indexed index rs' = index) as Hfold.
  { induction rs' as [|r rs' IH]; intros Hsub; [done|]. cbn [foldl].
    rewrite indexed_known.
    - apply IH. intros x Hx. apply Hsub. by right.
    - intros s d Ho.
      assert (is_Some (index !! s)) as [l Hl].
      { rewrite Hindex, lookup_fmap, fmap_is_Some, foldl_indexed_dom.
        right. exists r, d. split; [|done]. apply Hsub. by left. }
      exists l. split; [done|].
      destruct (index_lookup rs s) as [_ Hsome]. rewrite <- Hindex in Hsome.
      destruct (Hsome l Hl) as (_ & _ & Hmem). apply Hmem.
      exists r. split; [|done]. apply Hsub. by left. }
  rewrite Hfold by done.
  apply map_eq. intros s. rewrite lookup_fmap.
  destruct (index !! s) as [l|] eqn:E; [|done]. cbn [fmap option_fmap option_map].
  f_equal. apply sort_defined_sorted.
  destruct (index_lookup rs s) as [_ Hsome]. rewrite <- Hindex in Hsome.
  by destruct (Hsome l E) as (_ & Hs & _).
Qed.

Lemma find_first {A} (f : A → bool) (xs : list A) (x : A) :
  List.find f xs = Some x →
  ∃ before after, xs = (before ++ x :: after)%list
                  ∧ f x = true ∧ ∀ y, y ∈ before → f y = false.
Proof.
  induction xs as [|a xs IH]; [done|]. cbn [List.find].
  destruct (f a) eqn:E.
  - intros [= ->]. exists [], xs. split_and!; [done..|].
    intros ? []%elem_of_nil.
  - intros (before & after & -> & Hx & Hb)%IH.
    exists (a :: before), after. split_and!; [done..|].
    intros y [->|?]%elem_of_cons; auto.
Qed.

(** A selection taken from a record of the data never gets a placeholder:
    the panel shows a record of the data, the first one in file order that
    matches the selection. *)
Theorem getPrediction_finds_record (data : list PredictionRecord)
    (random : nat → Q) (r : PredictionRecord) (st di : string) (m y : Z) :
  r ∈ data →
  state r = Some st ∨ State r = Some st →
  district r = Some di ∨ District r = Some di →
  month r = Some m ∨ Month r = Some m →
  year r = Some y ∨ Year r = Some y →
  st ≠ "" → di ≠ "" → 0 <= m → 0 <= y →
  ∃ shown before after,
    getPrediction (Some data) random st di (String_of_Z m) (String_of_Z y)
      = Displayed shown
          (displayPrediction shown st di (String_of_Z m) (String_of_Z y))
    ∧ data = (before ++ shown :: after)%list
    ∧ matches st di (String_of_Z m) (String_of_Z y) shown = true
    ∧ ∀ q, q ∈ before →
           matches st di (String_of_Z m) (String_of_Z y) q = false.
Proof.
  intros Hr Hst Hdi Hm Hy Nst Ndi Hm0 Hy0.
  assert (matches st di (String_of_Z m) (String_of_Z y) r = true) as Hmatch.
  { apply matches_spec. split_and!; [done..| |].
    - exists m. split; [done|by apply Number_String_of_Z].
    - exists y. split; [done|by apply Number_String_of_Z]. }
  unfold getPrediction. rewrite !String_of_Z_truthy.
  assert (truthy st = true) as ->.
  { unfold truthy, string_ToBoolean. by apply negb_true_iff, String.eqb_neq. }
  assert (truthy di = true) as ->.
  { unfold truthy, string_ToBoolean. by apply negb_true_iff, String.eqb_neq. }
  cbn [negb orb].
  destruct (List.find (matches st di (String_of_Z m) (String_of_Z y)) data)
    as [shown|] eqn:E.
  - destruct (find_first _ _ _ E) as (before & after & Hd & Hs & Hb).
    exists shown, before, after. done.
  - exfalso. apply list_elem_of_In in Hr.
    pose proof (find_none _ _ E r Hr). congruence.
Qed.

Lemma getPrediction_finds_record_gaya :
  ∃ shown,
    getPrediction (Some [patna_2025_03; gaya_2025_04]) (λ _, 0%Q)
                  "Bihar" "Gaya" (String_of_Z 4) (String_of_Z 2025)
    = Displayed shown
        (displayPrediction shown "Bihar" "Gaya" (String_of_Z 4)
                           (String_of_Z 2025))
    ∧ matches "Bihar" "Gaya" (String_of_Z 4) (String_of_Z 2025) shown = true.
Proof.
  destruct (getPrediction_finds_record [patna_2025_03; gaya_2025_04]
              (λ _, 0%Q) gaya_2025_04 "Bihar" "Gaya" 4 2025)
    as (shown & before & after & H & _ & Hm & _);
    [by right; left|by left|by left|by left|by left|done|done|lia|lia|].
  exists shown. split; [exact H|exact Hm].
Defined.

(** Nothing is looked up or displayed unless the four parameters are all
    selected: an empty one ends in the alert, and only an empty one. *)
Theorem getPrediction_alert (data : option (list PredictionRecord))
    (random : nat → Q) (st di mo ye : string) :
  getPrediction data random st di mo ye = Alert
  ↔ st = "" ∨ di = "" ∨ mo = "" ∨ ye = "".
Proof.
  unfold getPrediction, truthy, string_ToBoolean. rewrite !negb_involutive.
  destruct (String.eqb_spec st ""), (String.eqb_spec di ""),
    (String.eqb_spec mo ""), (String.eqb_spec ye ""); cbn [orb];
    try (split; [intros _; tauto|done]).
  split; [|tauto].
  destruct data as [records|]; [|done].
  by destruct (List.find (matches st di mo ye) records).
Qed.

(** The year dropdown offers 2020 to 2030 in ascending order, and marks the
    current year as selected exactly when it is one of them. *)
Theorem initializeYears_options (currentYear : Z) :
  (initializeYears currentYear).*1 = seqZ 2020 11
  ∧ (∀ year, (year, true) ∈ initializeYears currentYear
             ↔ year = currentYear ∧ 2020 <= currentYear <= 2030)
  ∧ (∀ year, (year, false) ∈ initializeYears currentYear
             ↔ year ≠ currentYear ∧ 2020 <= year <= 2030).
Proof.
  unfold initializeYears. split_and!.
  - rewrite <- list_fmap_compose. apply list_fmap_id.
  - intros year. rewrite list_elem_of_fmap. setoid_rewrite elem_of_seqZ. split.
    + intros (k & [= -> E] & ?). symmetry in E. apply Z.eqb_eq in E. lia.
    + intros [-> ?]. exists currentYear. rewrite Z.eqb_refl. split; [done|lia].
  - intros year. rewrite list_elem_of_fmap. setoid_rewrite elem_of_seqZ. split.
    + intros (k & [= -> E] & ?). symmetry in E. apply Z.eqb_neq in E. lia.
    + intros [Hne ?]. exists year. apply Z.eqb_neq in Hne. rewrite Hne.
      split; [done|lia].
Qed.

Lemma or_default_measured {A} `{ToBoolean A} (lower upper : option A)
    (v fallback : A) :
  truthy v = true → measured lower upper v →
  or_default lower upper fallback = v.
Proof.
  intros Hv [->|[-> ->]]; unfold or_default, or_else; by rewrite ?Hv.
Qed.

Lemma Q_truthy (q : Q) : ¬ (q == 0)%Q → truthy q = true.
Proof.
  intros Hq. unfold truthy, Q_ToBoolean. apply negb_true_iff.
  destruct (Qeq_bool q 0) eqn:E; [|done]. by apply Qeq_bool_iff in E.
Qed.



(** ** The preselected date *)

(** The value that the script assigns to the date dropdown is always the
    value of one of its options, the one for January 2026; it is assigned
    as soon as a record of January 2026 is loaded. *)
Theorem dateSelectAssigned_option (data : list PredictionRecord) :
  (∀ v, dateSelectAssigned data = Some v →
        ∃ o, o ∈ dateSelectOptions data
             ∧ option_value o = v ∧ option_textContent o = "Jan 2026")
  ∧ (∀ p, p ∈ data → year p = Some 2026 → month p = Some 1 →
          dateSelectAssigned data = Some "2026-01").
Proof.
  unfold dateSelectAssigned, dateSelectOptions. split.
  - intros v.
    destruct (existsb _ (sorted (loadMapPredictions data))) eqn:E; [|done].
    intros [= <-]. apply existsb_exists in E as (d & Hd & ->%String.eqb_eq).
    exists (renderDateOption "2026-1"). split; [|done].
    apply list_elem_of_fmap_2. by apply list_elem_of_In.
  - intros p Hp Hy Hm.
    assert ("2026-1" ∈ sorted (loadMapPredictions data)) as Hin.
    { cbn [loadMapPredictions sorted]. rewrite sort_defined_Permutation.
      apply ymSet_elem. exists p. split; [done|]. split.
      - apply in_dropdown_range_spec. exists 2026. split; [done|lia].
      - by rewrite Hy, Hm. }
    destruct (existsb _ (sorted (loadMapPredictions data))) eqn:E; [done|].
    exfalso. apply not_true_iff_false in E. apply E, existsb_exists.
    exists "2026-1". split; [by apply list_elem_of_In|done].
Qed.
